(** * LazzyQuant market watcher: tick filtering, validator and timer tables

  A shallow embedding of [market_watcher/market_watcher.cpp].  The
  watcher is a single-threaded event handler, so every member function
  becomes a function from the object's fields to the new fields and the
  list of effects it produced (signals, files, timer objects, API calls).

  Qt containers: [QSet<QString>] is a [gset string], [QMap] and [QHash]
  keyed by strings or times are [gmap]s, [QList] and [QVector] are lists. *)

From Stdlib Require Import ZArith Lia.
From stdpp Require Import gmap strings list fin_maps sorting.

Local Open Scope Z_scope.

(** ** Qt value types used by the watcher *)

Module QTime.

(** A [QTime] holds [mds], the milliseconds since midnight, or [-1] for
    the null time. *)
Definition t := Z.

Definition NullTime : t := -1.
Definition MSECS_PER_DAY : Z := 86400000.

Definition fromHM (h m : Z) : t := (h * 3600 + m * 60) * 1000.
Definition fromHMS (h m s : Z) : t := (h * 3600 + m * 60 + s) * 1000.

Definition isValid (x : t) : bool := (NullTime <? x) && (x <? MSECS_PER_DAY).

Definition ds (x : t) : Z := if x =? NullTime then 0 else x.

Definition msecsSinceStartOfDay (x : t) : Z := ds x.

(** [addMSecs] for a non-negative offset, the only one the watcher uses. *)
Definition addMSecs (x : t) (ms : Z) : t :=
  if isValid x then (ds x + ms) mod MSECS_PER_DAY else NullTime.

Definition addSecs (x : t) (s : Z) : t := addMSecs x (s * 1000).

(** [operator>] compares the stored milliseconds. *)
Definition gt (x y : t) : bool := y <? x.

End QTime.

Module QDate.

(** A [QDate] is its Julian day number. *)
Definition t := Z.

Definition addDays (d : t) (n : Z) : t := d + n.

(** 1 is Monday, 7 is Sunday. *)
Definition dayOfWeek (d : t) : Z :=
  if 0 <=? d then d mod 7 + 1 else (d + 1) mod 7 + 7.

End QDate.

(** ** The time validator

  [time_validator.h] is not part of the sources at hand. *)

Module TimeValidator.

(** Modelled from the spec: the per-instrument validator state of
    [TimeValidator] (its class is declared in [time_validator.h], which
    is missing): the ordered logical-time boundaries and the last
    accepted (logical timestamp, sub-second remainder) pair. *)
Record t := mk { tradetimes : list Z; latest : option (Z * Z) }.

(** Modelled from the spec: the constructor of the missing
    [TimeValidator], built from the sorted, flattened list of session
    boundary instants, with nothing accepted yet. *)
Definition create (times : list Z) : t := mk times None.

(** Modelled from the spec: the value the missing [validate] returns for
    a rejected tick; [processDepthMarketData] takes any value that is not
    positive for a rejection and starts from 0. *)
Definition REJECT : Z := 0.

(** Modelled from the spec: the final timestamp of the missing
    [validate], [mappedSeconds * 1000 + milliseconds]. *)
Definition finalTimestamp (mappedSeconds msec : Z) : Z :=
  mappedSeconds * 1000 + msec.

(** Modelled from the spec: membership of a mapped time in one of the
    [start, end) boundary pairs of the missing [TimeValidator]. *)
Fixpoint inSession (bs : list Z) (x : Z) : bool :=
  match bs with
  | start :: stop :: rest => ((start <=? x) && (x <? stop)) || inSession rest x
  | _ => false
  end.

(** Modelled from the spec: [TimeValidator::validate], missing from the
    sources.  Reject when no boundaries are loaded, when the mapped time
    is outside every boundary pair, or when the final timestamp is not
    strictly greater than the last accepted one; otherwise record the
    tick as last accepted and return its final timestamp. *)
Definition validate (v : t) (mappedSeconds msec : Z) : Z * t :=
  match tradetimes v with
  | [] => (REJECT, v)
  | _ :: _ =>
      if negb (inSession (tradetimes v) mappedSeconds) then (REJECT, v)
      else
        let final := finalTimestamp mappedSeconds msec in
        let accepted := (final, mk (tradetimes v) (Some (mappedSeconds, msec))) in
        match latest v with
        | Some (s0, ms0) =>
            if final <=? finalTimestamp s0 ms0 then (REJECT, v) else accepted
        | None => accepted
        end
  end.

(** The final timestamp of the last accepted tick, if any. *)
Definition lastAccepted (v : t) : option Z :=
  match latest v with
  | Some (s0, ms0) => Some (finalTimestamp s0 ms0)
  | None => None
  end.

End TimeValidator.

(** ** The watcher *)

(** The first four bytes of [ActionDay] are overwritten with the local
  elapsed time before a tick is buffered. *)
Inductive ActionDayField :=
| FeedDay (day : string)
| LocalStamp (elapsed : Z) (day : string).

Definition stampActionDay (a : ActionDayField) (elapsed : Z) : ActionDayField :=
match a with
| FeedDay d => LocalStamp elapsed d
| LocalStamp _ d => LocalStamp elapsed d
end.

(** The clock readings [timesUp] takes: [QDate::currentDate()],
  [QTime::currentTime()] and the formatted [QDateTime::currentDateTime()]. *)
Record Clock := mkClock {
currentDate : Z;
currentTime : Z;
currentDateTime : string
}.

Module MarketWatcher.

Section Watcher.

(** Prices are floating point numbers the watcher only passes on. *)
Variable double : Type.

(** The fields of [CThostFtdcDepthMarketDataField] the watcher reads. *)
Record DepthMarketData := mkTick {
  InstrumentID : string;
  UpdateTime : string;
  UpdateMillisec : Z;
  LastPrice : double;
  Volume : Z;
  AskPrice1 : double;
  AskVolume1 : Z;
  BidPrice1 : double;
  BidVolume1 : Z;
  ActionDay : ActionDayField
}.

Definition withActionDay (md : DepthMarketData) (a : ActionDayField) : DepthMarketData :=
  mkTick (InstrumentID md) (UpdateTime md) (UpdateMillisec md) (LastPrice md)
         (Volume md) (AskPrice1 md) (AskVolume1 md) (BidPrice1 md) (BidVolume1 md) a.

(** What a member function does to the outside. *)
Inductive effect :=
| tradingDayChanged (tradingDay : string)
| newMarketData (instrumentID : string) (time : Z) (lastPrice : double) (volume : Z)
                (askPrice1 : double) (askVolume1 : Z) (bidPrice1 : double) (bidVolume1 : Z)
| FileWritten (fileName : string) (instrumentID : string) (data : list DepthMarketData)
| TimerDeleted
| TimerCreated (timePoints : list Z)
| ReqUserLogin
| SubscribeMarketData (instruments : list string)
| CheckDirectory (instrumentDir : string)
| SettingsWritten (instruments : list string).

(** The fields of [MarketWatcher] the modelled functions touch.  The
    time mapper [mapTime] is represented by the trading day it was last
    given; [multiTimer] by the time points the timer object was built
    from, [None] for the null pointer. *)
Record t := mkWatcher {
  subscribeSet : gset string;
  saveDepthMarketData : bool;
  saveDepthMarketDataPath : string;
  loggedIn : bool;
  currentTradingDay : string;
  mapTime : string;
  earliestTime : Z;
  timeValidators : gmap string TimeValidator.t;
  instrumentsToProcess : list (list string);
  multiTimer : option (list Z);
  depthMarketDataListMap : gmap string (list DepthMarketData)
}.

Definition setSubscribeSet (w : t) (s : gset string) : t :=
  mkWatcher s (saveDepthMarketData w) (saveDepthMarketDataPath w) (loggedIn w)
            (currentTradingDay w) (mapTime w) (earliestTime w) (timeValidators w)
            (instrumentsToProcess w) (multiTimer w) (depthMarketDataListMap w).

Definition setLoggedIn (w : t) (b : bool) : t :=
  mkWatcher (subscribeSet w) (saveDepthMarketData w) (saveDepthMarketDataPath w) b
            (currentTradingDay w) (mapTime w) (earliestTime w) (timeValidators w)
            (instrumentsToProcess w) (multiTimer w) (depthMarketDataListMap w).

Definition setCurrentTradingDay (w : t) (d : string) : t :=
  mkWatcher (subscribeSet w) (saveDepthMarketData w) (saveDepthMarketDataPath w) (loggedIn w)
            d (mapTime w) (earliestTime w) (timeValidators w)
            (instrumentsToProcess w) (multiTimer w) (depthMarketDataListMap w).

Definition setTradingDay (w : t) (d : string) : t :=
  mkWatcher (subscribeSet w) (saveDepthMarketData w) (saveDepthMarketDataPath w) (loggedIn w)
            (currentTradingDay w) d (earliestTime w) (timeValidators w)
            (instrumentsToProcess w) (multiTimer w) (depthMarketDataListMap w).

Definition setEarliestTime (w : t) (e : Z) : t :=
  mkWatcher (subscribeSet w) (saveDepthMarketData w) (saveDepthMarketDataPath w) (loggedIn w)
            (currentTradingDay w) (mapTime w) e (timeValidators w)
            (instrumentsToProcess w) (multiTimer w) (depthMarketDataListMap w).

Definition setTimeValidators (w : t) (tv : gmap string TimeValidator.t) : t :=
  mkWatcher (subscribeSet w) (saveDepthMarketData w) (saveDepthMarketDataPath w) (loggedIn w)
            (currentTradingDay w) (mapTime w) (earliestTime w) tv
            (instrumentsToProcess w) (multiTimer w) (depthMarketDataListMap w).

Definition setTimerTable (w : t) (groups : list (list string)) (points : list Z) : t :=
  mkWatcher (subscribeSet w) (saveDepthMarketData w) (saveDepthMarketDataPath w) (loggedIn w)
            (currentTradingDay w) (mapTime w) (earliestTime w) (timeValidators w)
            groups (Some points) (depthMarketDataListMap w).

Definition setDepthMarketDataListMap (w : t) (m : gmap string (list DepthMarketData)) : t :=
  mkWatcher (subscribeSet w) (saveDepthMarketData w) (saveDepthMarketDataPath w) (loggedIn w)
            (currentTradingDay w) (mapTime w) (earliestTime w) (timeValidators w)
            (instrumentsToProcess w) (multiTimer w) m.

(** *** Collaborators declared in headers that are not at hand *)

(** [market_info.h]: the session closes and the trading sessions of an
    instrument, as times of day. *)
Variable getEndPoints : string -> list Z.
Variable getTradingTimeRanges : string -> list (Z * Z).

(** [datetime_helper.h]: ["hh:mm:ss"] to seconds since midnight, the UTC
    timestamp of a date, and the call operator of the time mapper, which
    depends on the trading day the mapper was given. *)
Variable hhmmssToSec : string -> Z.
Variable dateToUtcTimestamp : Z -> Z.
Variable mapTimeCall : string -> Z -> Z.

(** [trading_calendar.h]. *)
Variable isTradingDay : Z -> bool.
Variable nextTradingDay : Z -> Z.

(** *** [setupTimers] *)

(** [endPointsMap[item] << instrumentID]: [operator[]] starts an absent
    key with the empty list. *)
Definition addEndPoint (instrumentID : string) (m : gmap Z (list string)) (item : Z)
  : gmap Z (list string) :=
  <[item := default [] (m !! item) ++ [instrumentID]]> m.

(** The first loop of [setupTimers], over the subscribe set in its
    iteration order. *)
Definition buildEndPointsMap (ids : list string) : gmap Z (list string) :=
  foldl (fun m instrumentID => foldl (addEndPoint instrumentID) m (getEndPoints instrumentID))
        ∅ ids.

(** [endPointsMap.keys()] followed by [std::sort]. *)
Definition sortedKeys (m : gmap Z (list string)) : list Z :=
  merge_sort Z.le (map_to_list m).*1.

(** The second loop: one entry of [instrumentsToProcess] and one save
    time point per key. *)
Definition collectTimePoints (m : gmap Z (list string)) (keys : list Z)
  : list (list string) * list Z :=
  foldl (fun acc timePoint =>
           (acc.1 ++ [default [] (m !! timePoint)],
            acc.2 ++ [QTime.addSecs timePoint 60]))
        ([], []) keys.

Definition setupTimers (w : t) : t * list effect :=
  let endPointsMap := buildEndPointsMap (elements (subscribeSet w)) in
  let keys := sortedKeys endPointsMap in
  let '(groups, saveBarTimePoints) := collectTimePoints endPointsMap keys in
  (setTimerTable w groups saveBarTimePoints,
   match multiTimer w with
   | Some _ => [TimerDeleted]
   | None => []
   end ++ [TimerCreated saveBarTimePoints]).

(** *** [timesUp] *)

(** [list[index]] for an [int] index; outside the list the access is
    an assertion failure, [None] here. *)
Definition atIndex {A : Type} (l : list A) (index : Z) : option A :=
  if index <? 0 then None else l !! Z.to_nat index.

Definition dataFileName (w : t) (now : Clock) (instrumentID : string) : string :=
  (saveDepthMarketDataPath w +:+ "/" +:+ instrumentID +:+ "/"
     +:+ currentDateTime now +:+ ".data")%string.

(** One round of the loop of [timesUp].  [depthMarketDataListMap[id]]
    enters the instrument with an empty list when it has no entry; a
    list that is not empty is written to its file and cleared. *)
Definition flushInstrument (w : t) (now : Clock)
           (acc : gmap string (list DepthMarketData) * list effect) (instrumentID : string)
  : gmap string (list DepthMarketData) * list effect :=
  match default [] (acc.1 !! instrumentID) with
  | [] => (<[instrumentID := []]> acc.1, acc.2)
  | md :: rest =>
      (<[instrumentID := []]> acc.1,
       acc.2 ++ [FileWritten (dataFileName w now instrumentID) instrumentID (md :: rest)])
  end.

(** The loop of [timesUp] over one entry of [instrumentsToProcess]. *)
Definition flushGroup (w : t) (now : Clock) (index : Z)
  : option (t * list effect) :=
  match atIndex (instrumentsToProcess w) index with
  | None => None
  | Some group =>
      let r := foldl (flushInstrument w now) (depthMarketDataListMap w, []) group in
      Some (setDepthMarketDataListMap w r.1, r.2)
  end.

Definition isNormalSaturday (today : Z) : bool :=
  isTradingDay (QDate.addDays today (-1))
  && (nextTradingDay today =? QDate.addDays today 2).

Definition timesUp (now : Clock) (index : Z) (w : t)
  : option (t * list effect) :=
  let today := currentDate now in
  if negb (isTradingDay today) then
    if negb (isNormalSaturday today) || QTime.gt (currentTime now) (QTime.fromHM 5 0) then
      Some (setDepthMarketDataListMap w ∅, [])
    else flushGroup w now index
  else flushGroup w now index.

(** *** [setupTimeValidators] *)

Definition secondsOfDay (x : Z) : Z := QTime.msecsSinceStartOfDay x ÷ 1000.

(** The inner loop: the mapped start and end of every range whose
    mapped start is not before [earliestTime]. *)
Definition collectTimes (tradingDay : string) (earliest : Z) (ranges : list (Z * Z)) : list Z :=
  foldl (fun times tradingTimeRange =>
           let rangeStart := mapTimeCall tradingDay (secondsOfDay tradingTimeRange.1) in
           if earliest <=? rangeStart then
             times ++ [rangeStart; mapTimeCall tradingDay (secondsOfDay tradingTimeRange.2)]
           else times)
        [] ranges.

Definition addValidator (tradingDay : string) (earliest : Z)
           (tv : gmap string TimeValidator.t) (instrumentID : string)
  : gmap string TimeValidator.t :=
  match collectTimes tradingDay earliest (getTradingTimeRanges instrumentID) with
  | [] => tv
  | x :: times =>
      <[instrumentID := TimeValidator.create (merge_sort Z.le (x :: times))]> tv
  end.

Definition setupTimeValidators (w : t) : t :=
  setTimeValidators w
    (foldl (addValidator (mapTime w) (earliestTime w)) ∅ (elements (subscribeSet w))).

(** *** [processDepthMarketData] *)

(** [elapsed] is the reading of [localTime.elapsed()]. *)
Definition processDepthMarketData (depthMarketDataField : DepthMarketData) (elapsed : Z)
           (w : t) : t * list effect :=
  let instrumentID := InstrumentID depthMarketDataField in
  let time := hhmmssToSec (UpdateTime depthMarketDataField) in
  let '(mappedTime, validators) :=
    match timeValidators w !! instrumentID with
    | Some pValidator =>
        let r := TimeValidator.validate pValidator (mapTimeCall (mapTime w) time)
                                        (UpdateMillisec depthMarketDataField) in
        (r.1, <[instrumentID := r.2]> (timeValidators w))
    | None => (0, timeValidators w)
    end in
  let w1 := setTimeValidators w validators in
  if 0 <? mappedTime then
    (if saveDepthMarketData w then
       let mdToSave := withActionDay depthMarketDataField
                         (stampActionDay (ActionDay depthMarketDataField) elapsed) in
       setDepthMarketDataListMap w1
         (<[instrumentID := default [] (depthMarketDataListMap w !! instrumentID) ++ [mdToSave]]>
            (depthMarketDataListMap w))
     else w1,
     [newMarketData instrumentID mappedTime
        (LastPrice depthMarketDataField) (Volume depthMarketDataField)
        (AskPrice1 depthMarketDataField) (AskVolume1 depthMarketDataField)
        (BidPrice1 depthMarketDataField) (BidVolume1 depthMarketDataField)])
  else (w1, []).

(** *** [customEvent], [subscribeInstruments], [setWeekend] *)

(** The events of the feed; [RSP_USER_LOGIN] carries what
    [getTradingDay()] returns when it is handled, [DEPTH_MARKET_DATA]
    the tick and the reading of the local timer. *)
Inductive Event :=
| FRONT_CONNECTED
| FRONT_DISCONNECTED (reason : Z)
| HEARTBEAT_WARNING
| RSP_USER_LOGIN (tradingDay : string)
| RSP_USER_LOGOUT
| RSP_ERROR
| RSP_SUB_MARKETDATA
| RSP_UNSUB_MARKETDATA
| DEPTH_MARKET_DATA (field : DepthMarketData) (elapsed : Z)
| OtherEvent.

Definition subscribe (w : t) : list effect :=
  [SubscribeMarketData (elements (subscribeSet w))].

Definition customEvent (event : Event) (w : t) : t * list effect :=
  match event with
  | FRONT_CONNECTED => (w, [ReqUserLogin])
  | FRONT_DISCONNECTED _ => (setLoggedIn w false, [])
  | RSP_USER_LOGIN tradingDay =>
      let w1 := setLoggedIn w true in
      if decide (currentTradingDay w1 = tradingDay) then (w1, subscribe w1)
      else
        let w2 := setupTimeValidators (setTradingDay w1 tradingDay) in
        let w3 := setCurrentTradingDay w2 tradingDay in
        (w3, tradingDayChanged tradingDay :: subscribe w3)
  | DEPTH_MARKET_DATA field elapsed => processDepthMarketData field elapsed w
  | _ => (w, [])
  end.

Definition checkDirectory (w : t) (instrumentID : string) : effect :=
  CheckDirectory (saveDepthMarketDataPath w +:+ "/" +:+ instrumentID)%string.

Definition subscribeInstruments (instruments : list string) (updateIni : bool)
           (w : t) : t * list effect :=
  let w1 := setSubscribeSet w (foldl (fun s i => {[ i ]} ∪ s) (subscribeSet w) instruments) in
  let e1 := if loggedIn w1 then [SubscribeMarketData instruments] else [] in
  let '(w2, e2) :=
    if saveDepthMarketData w1 then
      let r := setupTimers w1 in (r.1, map (checkDirectory w1) instruments ++ r.2)
    else (w1, []) in
  let w3 := if loggedIn w2 then setupTimeValidators w2 else w2 in
  let e3 := if updateIni then [SettingsWritten instruments] else [] in
  (w3, e1 ++ e2 ++ e3).

Definition setWeekend (today : Z) (w : t) : t :=
  setEarliestTime w (dateToUtcTimestamp (nextTradingDay today) + 8 * 3600).

End Watcher.

Arguments mkTick {double}.
Arguments InstrumentID {double}.
Arguments UpdateTime {double}.
Arguments UpdateMillisec {double}.
Arguments LastPrice {double}.
Arguments Volume {double}.
Arguments AskPrice1 {double}.
Arguments AskVolume1 {double}.
Arguments BidPrice1 {double}.
Arguments BidVolume1 {double}.
Arguments ActionDay {double}.
Arguments withActionDay {double}.
Arguments tradingDayChanged {double}.
Arguments newMarketData {double}.
Arguments FileWritten {double}.
Arguments TimerDeleted {double}.
Arguments TimerCreated {double}.
Arguments ReqUserLogin {double}.
Arguments SubscribeMarketData {double}.
Arguments CheckDirectory {double}.
Arguments SettingsWritten {double}.
Arguments mkWatcher {double}.
Arguments subscribeSet {double}.
Arguments saveDepthMarketData {double}.
Arguments saveDepthMarketDataPath {double}.
Arguments loggedIn {double}.
Arguments currentTradingDay {double}.
Arguments mapTime {double}.
Arguments earliestTime {double}.
Arguments timeValidators {double}.
Arguments instrumentsToProcess {double}.
Arguments multiTimer {double}.
Arguments depthMarketDataListMap {double}.
Arguments setSubscribeSet {double}.
Arguments setLoggedIn {double}.
Arguments setCurrentTradingDay {double}.
Arguments setTradingDay {double}.
Arguments setEarliestTime {double}.
Arguments setTimeValidators {double}.
Arguments setTimerTable {double}.
Arguments setDepthMarketDataListMap {double}.
Arguments setupTimers {double}.
Arguments dataFileName {double}.
Arguments flushInstrument {double}.
Arguments flushGroup {double}.
Arguments timesUp {double}.
Arguments setupTimeValidators {double}.
Arguments processDepthMarketData {double}.
Arguments FRONT_CONNECTED {double}.
Arguments FRONT_DISCONNECTED {double}.
Arguments HEARTBEAT_WARNING {double}.
Arguments RSP_USER_LOGIN {double}.
Arguments RSP_USER_LOGOUT {double}.
Arguments RSP_ERROR {double}.
Arguments RSP_SUB_MARKETDATA {double}.
Arguments RSP_UNSUB_MARKETDATA {double}.
Arguments DEPTH_MARKET_DATA {double}.
Arguments OtherEvent {double}.
Arguments subscribe {double}.
Arguments customEvent {double}.
Arguments checkDirectory {double}.
Arguments subscribeInstruments {double}.
Arguments setWeekend {double}.

End MarketWatcher.

Import MarketWatcher.

(** * Notions the statements use *)

Section Notions.

Variable double : Type.
Variable getEndPoints : string -> list Z.

(** One copy of the instrument for every session of it that closes at [t]. *)
Definition closesAt (t : Z) (instrumentID : string) : list string :=
  (fun _ => instrumentID) <$> filter (fun x => x = t) (getEndPoints instrumentID).

(** The instruments, in the order of [ids], that close at [t]. *)
Definition closingAt (ids : list string) (t : Z) : list string :=
  ids ≫= closesAt t.

(** The distinct session closes of the subscribed instruments, ascending. *)
Definition closeTimes (w : MarketWatcher.t double) : list Z :=
  sortedKeys (buildEndPointsMap getEndPoints (elements (subscribeSet w))).

(** The schedule of an instrument: its sorted set of session closes. *)
Definition schedule (instrumentID : string) : list Z :=
  merge_sort Z.le (remove_dups (getEndPoints instrumentID)).

Variable getTradingTimeRanges : string -> list (Z * Z).
Variable hhmmssToSec : string -> Z.
Variable mapTimeCall : string -> Z -> Z.

(** The mapped start and end of a session. *)
Definition boundaryPair (tradingDay : string) (r : Z * Z) : list Z :=
  [mapTimeCall tradingDay (secondsOfDay r.1); mapTimeCall tradingDay (secondsOfDay r.2)].

(** Every mapped boundary of a session table. *)
Definition allBoundaries (tradingDay : string) (ranges : list (Z * Z)) : list Z :=
  ranges ≫= boundaryPair tradingDay.

(** The sessions whose mapped start is not before [earliest], and their
    mapped boundaries. *)
Definition keptRanges (tradingDay : string) (earliest : Z) (ranges : list (Z * Z))
  : list (Z * Z) :=
  filter (fun r => earliest <= mapTimeCall tradingDay (secondsOfDay r.1)) ranges.

Definition keptBoundaries (tradingDay : string) (earliest : Z) (ranges : list (Z * Z))
  : list Z :=
  keptRanges tradingDay earliest ranges ≫= boundaryPair tradingDay.

(** The final timestamp of the last tick the validator of an instrument
    accepted. *)
Definition lastOf (w : MarketWatcher.t double) (instrumentID : string) : option Z :=
  timeValidators w !! instrumentID ≫= TimeValidator.lastAccepted.

(** Every entry of a group table holds instruments of one schedule only. *)
Definition groupedBySchedule (groups : list (list string)) : Prop :=
  forall g a b, g ∈ groups -> a ∈ g -> b ∈ g -> schedule a = schedule b.

(** The timestamps of the [newMarketData] signals for one instrument. *)
Definition emittedFor (instrumentID : string) (es : list (effect double)) : list Z :=
  omap (fun e => match e with
                 | newMarketData id time _ _ _ _ _ _ =>
                     if decide (id = instrumentID) then Some time else None
                 | _ => None
                 end) es.

(** A run of ticks, each with the reading of the local timer, handled
    one after the other. *)
Definition processTicks (ticks : list (DepthMarketData double * Z)) (w : MarketWatcher.t double)
  : MarketWatcher.t double * list (effect double) :=
  foldl (fun acc tick =>
           let r := processDepthMarketData hhmmssToSec mapTimeCall tick.1 tick.2 acc.1 in
           (r.1, acc.2 ++ r.2))
        (w, []) ticks.

End Notions.

Arguments closeTimes {double}.
Arguments lastOf {double}.
Arguments emittedFor {double}.
Arguments processTicks {double}.


(** * The rest of the watcher *)

Section Interface.

Variable double : Type.
Variable getEndPoints : string -> list Z.
Variable getTradingTimeRanges : string -> list (Z * Z).
Variable hhmmssToSec : string -> Z.
Variable dateToUtcTimestamp : Z -> Z.
Variable mapTimeCall : string -> Z -> Z.
Variable isTradingDay : Z -> bool.
Variable nextTradingDay : Z -> Z.

(** [getStatus] and [getSubscribeList]. *)
Definition getStatus (w : MarketWatcher.t double) : string :=
  if loggedIn w then "Ready" else "NotReady".

Definition getSubscribeList (w : MarketWatcher.t double) : list string :=
  elements (subscribeSet w).

(** The entry points of the watcher that change its fields: the event
    handler, the two slots and the timer's signal. *)
Inductive Call :=
| CustomEvent (event : Event double)
| SubscribeInstruments (instruments : list string) (updateIni : bool)
| TimesUp (now : Clock) (index : Z)
| SetWeekend (today : Z).

Definition call (c : Call) (w : MarketWatcher.t double)
  : option (MarketWatcher.t double * list (effect double)) :=
  match c with
  | CustomEvent event =>
      Some (customEvent getTradingTimeRanges hhmmssToSec mapTimeCall event w)
  | SubscribeInstruments instruments updateIni =>
      Some (subscribeInstruments getEndPoints getTradingTimeRanges mapTimeCall
              instruments updateIni w)
  | TimesUp now index => timesUp isTradingDay nextTradingDay now index w
  | SetWeekend today => Some (setWeekend dateToUtcTimestamp nextTradingDay today w, [])
  end.

(** Calls handled one after the other on the single thread of the
    watcher; a failed call ends the run. *)
Fixpoint calls (cs : list Call) (w : MarketWatcher.t double)
  : option (MarketWatcher.t double * list (effect double)) :=
  match cs with
  | [] => Some (w, [])
  | c :: cs' =>
      match call c w with
      | None => None
      | Some r1 =>
          match calls cs' r1.1 with
          | None => None
          | Some r2 => Some (r2.1, r1.2 ++ r2.2)
          end
      end
  end.

(** Every instrument some [SubscribeInstruments] call of the run names. *)
Fixpoint requested (cs : list Call) : gset string :=
  match cs with
  | [] => ∅
  | SubscribeInstruments instruments _ :: cs' => list_to_set instruments ∪ requested cs'
  | _ :: cs' => requested cs'
  end.

(** The timer table is the one [setupTimers] builds for the subscribe set. *)
Definition timerTableCurrent (w : MarketWatcher.t double) : Prop :=
  instrumentsToProcess w
  = closingAt getEndPoints (elements (subscribeSet w)) <$> closeTimes getEndPoints w
  /\ multiTimer w = Some ((fun tp => QTime.addSecs tp 60) <$> closeTimes getEndPoints w).

(** *** The constructor *)

(** What the constructor reads from the settings; [SubscribeList] is what
    [getSettingItemList] returns for that group. *)
Record Settings := mkSettings {
  FlowPath : string;
  SaveDepthMarketData : bool;
  SaveDepthMarketDataPath : string;
  SubscribeList : list string;
  FrontSites : list string
}.

(** What the constructor does to the outside, besides the effects of the
    member functions it calls. *)
Inductive startEffect :=
| DirectoryMissing (path : string)
| DirectoryNotCreated (path : string)
| CreateFtdcMdApi (flowPath : string)
| RegisterSpi
| RegisterFront (address : string)
| Member (e : effect double)
| Init
| LocalTimeStarted.

(** The constructor.  [w0] holds the initial values the header gives the
    members; [dirExists] is the answer of [dir.exists()] and [mkpathOk]
    that of [dir.mkpath], which is asked only when the directory is
    missing and saving is configured. *)
Definition construct (settings : Settings) (dirExists mkpathOk : bool)
           (w0 : MarketWatcher.t double)
  : MarketWatcher.t double * list startEffect :=
  let save :=
    if dirExists then SaveDepthMarketData settings
    else if SaveDepthMarketData settings && negb mkpathOk then false
         else SaveDepthMarketData settings in
  let e1 :=
    if dirExists then []
    else DirectoryMissing (SaveDepthMarketDataPath settings)
         :: (if SaveDepthMarketData settings && negb mkpathOk
             then [DirectoryNotCreated (SaveDepthMarketDataPath settings)] else []) in
  let w1 :=
    mkWatcher (list_to_set (SubscribeList settings)) save (SaveDepthMarketDataPath settings)
              (loggedIn w0) (currentTradingDay w0) (mapTime w0) (earliestTime w0)
              (timeValidators w0) (instrumentsToProcess w0) (multiTimer w0)
              (depthMarketDataListMap w0) in
  let e2 := CreateFtdcMdApi (FlowPath settings) :: RegisterSpi
            :: map (fun address => RegisterFront ("tcp://" +:+ address)%string)
                   (FrontSites settings) in
  let r :=
    if save then
      let t := setupTimers getEndPoints w1 in
      (t.1, map (fun i => Member (checkDirectory w1 i)) (elements (subscribeSet w1))
            ++ map Member t.2)
    else (w1, []) in
  (r.1, e1 ++ e2 ++ r.2 ++ [Init; LocalTimeStarted]).

End Interface.

Arguments getStatus {double}.
Arguments getSubscribeList {double}.
Arguments CustomEvent {double}.
Arguments SubscribeInstruments {double}.
Arguments TimesUp {double}.
Arguments SetWeekend {double}.
Arguments call {double}.
Arguments calls {double}.
Arguments requested {double}.
Arguments timerTableCurrent {double}.
Arguments DirectoryMissing {double}.
Arguments DirectoryNotCreated {double}.
Arguments CreateFtdcMdApi {double}.
Arguments RegisterFront {double}.
Arguments Member {double}.
Arguments Init {double}.
Arguments RegisterSpi {double}.
Arguments LocalTimeStarted {double}.
Arguments construct {double}.


(** * Sample data *)

(** Four instruments, a calendar with a break in the middle of a week, and
  a few states of the watcher, for the examples that follow. *)

Module Sample.

(** Prices in hundredths. *)
Definition price : Type := Z.

Definition getTradingTimeRanges (instrumentID : string) : list (Z * Z) :=
  if decide (instrumentID = "rb2701") then [(QTime.fromHM 9 0, QTime.fromHM 15 0)]
  else if decide (instrumentID = "hc2701") then [(QTime.fromHM 9 0, QTime.fromHM 15 0)]
  else if decide (instrumentID = "T2612") then [(QTime.fromHM 9 30, QTime.fromHM 15 15)]
  else if decide (instrumentID = "cu2701")
       then [(QTime.fromHM 9 0, QTime.fromHM 15 0); (QTime.fromHM 21 0, QTime.fromHM 1 0)]
  else [].

Definition getEndPoints (instrumentID : string) : list Z :=
  (getTradingTimeRanges instrumentID).*2.

Definition digit (c : Ascii.ascii) : Z := Z.of_nat (Ascii.nat_of_ascii c) - 48.

Definition hhmmssToSec (s : string) : Z :=
  match String.list_ascii_of_string s with
  | [h1; h2; _; m1; m2; _; s1; s2] =>
      (digit h1 * 10 + digit h2) * 3600 + (digit m1 * 10 + digit m2) * 60
      + (digit s1 * 10 + digit s2)
  | _ => 0
  end.

(** Julian day 2440588 is 1970-01-01. *)
Definition dateToUtcTimestamp (d : Z) : Z := (d - 2440588) * 86400.

(** Monday 2026-11-02 and the days after it. *)
Definition monday : Z := 2461347.
Definition wednesday : Z := monday + 2.
Definition saturday : Z := monday + 5.

Definition epoch (tradingDay : string) : Z :=
  if decide (tradingDay = "20261102") then dateToUtcTimestamp monday
  else if decide (tradingDay = "20261103") then dateToUtcTimestamp (monday + 1)
  else 0.

(** Times of day up to 05:00 continue the session of the evening before. *)
Definition mapTimeCall (tradingDay : string) (secs : Z) : Z :=
  epoch tradingDay + (if secs <=? 5 * 3600 then 86400 + secs else secs).

(** Monday to Friday, except a break on Wednesday and Thursday. *)
Definition isTradingDay (d : Z) : bool :=
  (QDate.dayOfWeek d <=? 5) && negb (bool_decide (d ∈ [wednesday; wednesday + 1])).

Fixpoint firstTradingDay (fuel : nat) (d : Z) : Z :=
  match fuel with
  | O => d
  | S fuel' => if isTradingDay d then d else firstTradingDay fuel' (d + 1)
  end.

Definition nextTradingDay (d : Z) : Z := firstTradingDay 30 (d + 1).

Definition tick (instrumentID time : string) (msec : Z) : DepthMarketData price :=
  mkTick instrumentID time msec 350000 12 350100 5 349900 7 (FeedDay "20261102").

(** Three instruments, two closing at 15:00 and one at 15:15, before the
    first login. *)
Definition started : MarketWatcher.t price :=
  mkWatcher {[ "rb2701"; "hc2701"; "T2612" ]} true "/data" false "" "" 0 ∅ [] None ∅.

Definition armed : MarketWatcher.t price := (setupTimers getEndPoints started).1.

Definition loggedInMonday : MarketWatcher.t price :=
  (customEvent getTradingTimeRanges hhmmssToSec mapTimeCall (RSP_USER_LOGIN "20261102") armed).1.

(** The same watcher with saving switched off. *)
Definition notSaving : MarketWatcher.t price :=
  (customEvent getTradingTimeRanges hhmmssToSec mapTimeCall (RSP_USER_LOGIN "20261102")
     (mkWatcher {[ "rb2701"; "hc2701"; "T2612" ]} false "/data" false "" "" 0 ∅ [] None ∅)).1.

(** Two instruments with different schedules that both close at 15:00. *)
Definition mixed : MarketWatcher.t price :=
  mkWatcher {[ "rb2701"; "cu2701" ]} true "/data" false "" "" 0 ∅ [] None ∅.

(** The earliest acceptable time falls at 10:00 of the trading day, and
    after the weekend's [setWeekend] at 08:00 of the next one. *)
Definition floorAtTen : MarketWatcher.t price :=
  setTradingDay (setEarliestTime armed (epoch "20261102" + 10 * 3600)) "20261102".

Definition weekend : MarketWatcher.t price :=
  setWeekend dateToUtcTimestamp nextTradingDay saturday (setTradingDay armed "20261102").

Definition ticks : list (DepthMarketData price * Z) :=
  [(tick "rb2701" "09:00:01" 0, 100); (tick "rb2701" "09:00:01" 500, 110);
   (tick "rb2701" "09:00:01" 500, 120); (tick "T2612" "09:00:02" 0, 130);
   (tick "rb2701" "09:00:00" 500, 140); (tick "rb2701" "09:00:02" 0, 150)].

(** The watcher after the ticks above. *)
Definition buffered : MarketWatcher.t price :=
  (processTicks hhmmssToSec mapTimeCall ticks loggedInMonday).1.

End Sample.

(** A configuration to start the watcher from, and the watcher after a
    disconnect. *)

Module Startup.

Definition settings : Settings :=
  mkSettings "/flow" true "/data" ["rb2701"; "hc2701"; "T2612"] ["180.168.146.187:10010"].

(** The members as the header initialises them. *)
Definition blank : MarketWatcher.t Sample.price :=
  mkWatcher ∅ false "" false "" "" 0 ∅ [] None ∅.

Definition disconnected : MarketWatcher.t Sample.price :=
  (customEvent Sample.getTradingTimeRanges Sample.hhmmssToSec Sample.mapTimeCall
     (FRONT_DISCONNECTED 0) Sample.buffered).1.

Definition day : list (Call Sample.price) :=
  [CustomEvent (DEPTH_MARKET_DATA (Sample.tick "rb2701" "09:00:03" 0) 160);
   SubscribeInstruments ["cu2701"] false;
   CustomEvent (FRONT_DISCONNECTED 0);
   TimesUp (mkClock Sample.monday (QTime.fromHM 15 1) "20261102_150100_000") 0;
   SetWeekend Sample.saturday].

Definition afterClose : Clock :=
  mkClock Sample.monday (QTime.fromHM 15 1) "20261102_150100_000".

End Startup.


(** * Properties *)

Section Properties.

Set Default Proof Using "Type".

Context (double : Type).
Context (getEndPoints : string -> list Z) (getTradingTimeRanges : string -> list (Z * Z)).
Context (hhmmssToSec : string -> Z) (dateToUtcTimestamp : Z -> Z).
Context (mapTimeCall : string -> Z -> Z).
Context (isTradingDay : Z -> bool) (nextTradingDay : Z -> Z).

(** The solvers below revert the whole context; the collaborators a goal
    does not mention are cleared first. *)
Local Ltac forget_collaborators :=
  try clear dateToUtcTimestamp; try clear nextTradingDay; try clear isTradingDay;
  try clear mapTimeCall; try clear hhmmssToSec; try clear getTradingTimeRanges;
  try clear getEndPoints.

Local Abbreviation buildEndPointsMap := (MarketWatcher.buildEndPointsMap getEndPoints).
Local Abbreviation setupTimers := (@MarketWatcher.setupTimers double getEndPoints).
Local Abbreviation flushGroup := (@MarketWatcher.flushGroup double).
Local Abbreviation timesUp := (@MarketWatcher.timesUp double isTradingDay nextTradingDay).
Local Abbreviation isNormalSaturday := (MarketWatcher.isNormalSaturday isTradingDay nextTradingDay).
Local Abbreviation collectTimes := (MarketWatcher.collectTimes mapTimeCall).
Local Abbreviation addValidator := (MarketWatcher.addValidator getTradingTimeRanges mapTimeCall).
Local Abbreviation setupTimeValidators := (@MarketWatcher.setupTimeValidators double getTradingTimeRanges mapTimeCall).
Local Abbreviation processDepthMarketData := (@MarketWatcher.processDepthMarketData double hhmmssToSec mapTimeCall).
Local Abbreviation customEvent := (@MarketWatcher.customEvent double getTradingTimeRanges hhmmssToSec mapTimeCall).
Local Abbreviation subscribeInstruments :=
  (@MarketWatcher.subscribeInstruments double getEndPoints getTradingTimeRanges mapTimeCall).

(** ** The timer table *)

Lemma collectTimePoints_maps (m : gmap Z (list string)) keys :
  collectTimePoints m keys =
    ((fun tp => default [] (m !! tp)) <$> keys, (fun tp => QTime.addSecs tp 60) <$> keys).
Proof.
  unfold collectTimePoints.
  enough (H : forall a b,
             foldl (fun acc timePoint =>
                      (acc.1 ++ [default [] (m !! timePoint)],
                       acc.2 ++ [QTime.addSecs timePoint 60])) (a, b) keys
             = (a ++ ((fun tp => default [] (m !! tp)) <$> keys),
                b ++ ((fun tp => QTime.addSecs tp 60) <$> keys))) by apply H.
  induction keys as [|k keys IH]; intros a b; simpl.
  - by rewrite !app_nil_r.
  - rewrite IH. by rewrite <- !app_assoc.
Qed.

Lemma addEndPoint_lookup id (m : gmap Z (list string)) item t :
  default [] (addEndPoint id m item !! t)
  = default [] (m !! t) ++ (if decide (item = t) then [id] else []).
Proof.
  unfold addEndPoint. destruct (decide (item = t)) as [->|Hne].
  - by rewrite lookup_insert_eq.
  - rewrite lookup_insert_ne by done. by rewrite app_nil_r.
Qed.

Lemma addEndPoint_is_Some id (m : gmap Z (list string)) item t :
  is_Some (addEndPoint id m item !! t) <-> is_Some (m !! t) \/ item = t.
Proof.
  unfold addEndPoint. destruct (decide (item = t)) as [->|Hne].
  - rewrite lookup_insert_eq. (forget_collaborators; naive_solver).
  - rewrite lookup_insert_ne by done. (forget_collaborators; naive_solver).
Qed.

Lemma foldl_addEndPoint_lookup id items (m : gmap Z (list string)) t :
  default [] (foldl (addEndPoint id) m items !! t)
  = default [] (m !! t) ++ ((fun _ => id) <$> filter (fun x => x = t) items).
Proof.
  revert m. induction items as [|item items IH]; intros m; simpl.
  - by rewrite app_nil_r.
  - rewrite IH, addEndPoint_lookup, <- app_assoc. f_equal.
    rewrite filter_cons. destruct (decide (item = t)); done.
Qed.

Lemma foldl_addEndPoint_is_Some id items (m : gmap Z (list string)) t :
  is_Some (foldl (addEndPoint id) m items !! t) <-> is_Some (m !! t) \/ t ∈ items.
Proof.
  revert m. induction items as [|item items IH]; intros m; simpl.
  - rewrite elem_of_nil. (forget_collaborators; tauto).
  - rewrite IH, addEndPoint_is_Some, elem_of_cons. (forget_collaborators; intuition congruence).
Qed.

Lemma foldl_instruments_lookup ids (m : gmap Z (list string)) t :
  default [] (foldl (fun m id => foldl (addEndPoint id) m (getEndPoints id)) m ids !! t)
  = default [] (m !! t) ++ closingAt getEndPoints ids t.
Proof.
  revert m. induction ids as [|id ids IH]; intros m; simpl.
  - by rewrite app_nil_r.
  - rewrite IH, foldl_addEndPoint_lookup, <- app_assoc. done.
Qed.

Lemma foldl_instruments_is_Some ids (m : gmap Z (list string)) t :
  is_Some (foldl (fun m id => foldl (addEndPoint id) m (getEndPoints id)) m ids !! t)
  <-> is_Some (m !! t) \/ exists id, id ∈ ids /\ t ∈ getEndPoints id.
Proof.
  revert m. induction ids as [|id ids IH]; intros m; simpl.
  - split; [(forget_collaborators; tauto)|]. intros [H|(id & Hid & _)]; [done|]. by apply elem_of_nil in Hid.
  - rewrite IH, foldl_addEndPoint_is_Some. split.
    + intros [[H|H]|(id' & Hid & Ht)]; [by left| right; exists id | right; exists id'].
      * split; [apply elem_of_cons; by left | done].
      * split; [apply elem_of_cons; by right | done].
    + intros [H|(id' & Hid & Ht)]; [by left; left|].
      apply elem_of_cons in Hid as [->|Hid]; [by left; right|].
      right. by exists id'.
Qed.

Lemma buildEndPointsMap_lookup ids t :
  default [] (buildEndPointsMap ids !! t) = closingAt getEndPoints ids t.
Proof.
  unfold MarketWatcher.buildEndPointsMap. by rewrite foldl_instruments_lookup, lookup_empty.
Qed.

Lemma buildEndPointsMap_is_Some ids t :
  is_Some (buildEndPointsMap ids !! t) <-> exists id, id ∈ ids /\ t ∈ getEndPoints id.
Proof.
  unfold MarketWatcher.buildEndPointsMap. rewrite foldl_instruments_is_Some, lookup_empty.
  split; [intros [H|H]; [by destruct H | done] | by right].
Qed.

Lemma closingAt_elem ids t id :
  id ∈ closingAt getEndPoints ids t <-> id ∈ ids /\ t ∈ getEndPoints id.
Proof.
  unfold closingAt, closesAt. rewrite list_elem_of_bind. split.
  - intros (y & Hin & Hy). apply list_elem_of_fmap in Hin as (x & -> & Hx).
    apply list_elem_of_filter in Hx as [-> Hx]. done.
  - intros [Hid Ht]. exists id. split; [|done].
    apply list_elem_of_fmap. exists t. split; [done|]. by apply list_elem_of_filter.
Qed.

Lemma Sorted_le_NoDup_lt (l : list Z) :
  Sorted Z.le l -> NoDup l -> StronglySorted Z.lt l.
Proof.
  intros Hs Hn. apply Sorted_StronglySorted in Hs; [|intros x y z; lia].
  induction Hs as [|x l Hs IH Hall]; [constructor|].
  apply NoDup_cons in Hn as [Hx Hn]. constructor; [by apply IH|].
  apply Forall_forall. intros y Hy.
  assert (x <= y) by (rewrite Forall_forall in Hall; by apply Hall).
  assert (x <> y) by (intros ->; by apply Hx, list_elem_of_In).
  lia.
Qed.

Lemma sortedKeys_elem (m : gmap Z (list string)) t :
  t ∈ sortedKeys m <-> is_Some (m !! t).
Proof.
  unfold sortedKeys. rewrite merge_sort_Permutation.
  rewrite list_elem_of_fmap. split.
  - intros ([k l] & -> & Hkl). apply elem_of_map_to_list in Hkl. by exists l.
  - intros [l Hl]. exists (t, l). split; [done|]. by apply elem_of_map_to_list.
Qed.

Lemma sortedKeys_sorted (m : gmap Z (list string)) : StronglySorted Z.lt (sortedKeys m).
Proof.
  unfold sortedKeys. apply Sorted_le_NoDup_lt.
  - apply (Sorted_merge_sort Z.le).
  - rewrite merge_sort_Permutation. apply NoDup_fst_map_to_list.
Qed.


Lemma setupTimers_table w :
  instrumentsToProcess (setupTimers w).1
  = closingAt getEndPoints (elements (subscribeSet w)) <$> closeTimes getEndPoints w
  /\ multiTimer (setupTimers w).1
     = Some ((fun tp => QTime.addSecs tp 60) <$> closeTimes getEndPoints w)
  /\ TimerCreated ((fun tp => QTime.addSecs tp 60) <$> closeTimes getEndPoints w)
     ∈ (setupTimers w).2.
Proof.
  unfold MarketWatcher.setupTimers, closeTimes. rewrite collectTimePoints_maps. simpl.
  split; [|split; [done|]].
  - apply list_fmap_ext. intros _ t _. apply buildEndPointsMap_lookup.
  - apply elem_of_app. right. apply list_elem_of_singleton. done.
Qed.

Lemma closeTimes_elem (w : MarketWatcher.t double) t :
  t ∈ closeTimes getEndPoints w
  <-> exists id, id ∈ subscribeSet w /\ t ∈ getEndPoints id.
Proof.
  unfold closeTimes. rewrite sortedKeys_elem, buildEndPointsMap_is_Some.
  split; intros (id & Hid & Ht); exists id; (split; [|done]); by apply elem_of_elements.
Qed.

Lemma addSecs_60_small t :
  0 <= t < QTime.fromHMS 23 59 0 -> QTime.addSecs t 60 = t + 60000.
Proof.
  unfold QTime.fromHMS, QTime.addSecs, QTime.addMSecs, QTime.isValid, QTime.ds,
    QTime.NullTime, QTime.MSECS_PER_DAY.
  intros Ht.
  destruct (Z.ltb_spec (-1) t); [|lia].
  destruct (Z.ltb_spec t 86400000); [|lia]. simpl.
  destruct (Z.eqb_spec t (-1)); [lia|].
  apply Z.mod_small. lia.
Qed.

Lemma StronglySorted_lt_fmap (f : Z -> Z) (l : list Z) :
  (forall x y, x ∈ l -> y ∈ l -> x < y -> f x < f y) ->
  StronglySorted Z.lt l -> StronglySorted Z.lt (f <$> l).
Proof.
  intros Hf Hs. induction Hs as [|x l Hs IH Hall]; simpl; [constructor|].
  constructor.
  - apply IH. intros a b Ha Hb. apply Hf; by apply elem_of_cons; right.
  - apply Forall_fmap, Forall_forall. intros y Hy. simpl.
    apply Hf; [apply elem_of_cons; by left | apply elem_of_cons; by right |].
    rewrite Forall_forall in Hall. by apply Hall.
Qed.

(** C4.  The time points the timer is built from are the distinct session
    closes of the subscribed instruments, taken in ascending order, each
    moved on by 60 seconds; so every armed point is some subscribed
    instrument's close plus 60 seconds.  As long as no close lies in the
    last minute of the day the addition does not wrap past midnight and
    the armed points are themselves ascending. *)
Theorem setupTimers_arms_closes_plus_60 w :
  let keys := closeTimes getEndPoints w in
  let armed := (fun tp => QTime.addSecs tp 60) <$> keys in
  multiTimer (setupTimers w).1 = Some armed
  /\ TimerCreated armed ∈ (setupTimers w).2
  /\ StronglySorted Z.lt keys
  /\ (forall t, t ∈ keys <-> exists id, id ∈ subscribeSet w /\ t ∈ getEndPoints id)
  /\ (forall p, p ∈ armed ->
        exists id t, id ∈ subscribeSet w /\ t ∈ getEndPoints id /\ p = QTime.addSecs t 60)
  /\ ((forall id t, id ∈ subscribeSet w -> t ∈ getEndPoints id ->
                    0 <= t < QTime.fromHMS 23 59 0) ->
      StronglySorted Z.lt armed
      /\ forall t, t ∈ keys -> QTime.addSecs t 60 = t + 60000).
Proof.
  intros keys armed. destruct (setupTimers_table w) as (_ & Ht & He).
  split; [done|]. split; [done|].
  split; [apply sortedKeys_sorted|].
  split; [apply closeTimes_elem|].
  split.
  - intros p Hp. apply list_elem_of_fmap in Hp as (t & -> & Ht').
    apply closeTimes_elem in Ht' as (id & Hid & Hc). by exists id, t.
  - intros Hday.
    assert (Hsmall : forall t, t ∈ keys -> 0 <= t < QTime.fromHMS 23 59 0).
    { intros t Hk. apply closeTimes_elem in Hk as (id & Hid & Hc). by apply (Hday id). }
    split.
    + apply StronglySorted_lt_fmap; [|apply sortedKeys_sorted].
      intros x y Hx Hy Hxy. rewrite !addSecs_60_small by by apply Hsmall. lia.
    + intros t Hk. by apply addSecs_60_small, Hsmall.
Qed.


(** ** Firing *)

Lemma flushInstrument_step (w : MarketWatcher.t double) now m out id :
  exists f1,
    flushInstrument w now (m, out) id = (<[id := []]> m, out ++ f1)
    /\ (forall l, m !! id = Some l -> l <> [] ->
                  f1 = [FileWritten (dataFileName w now id) id l])
    /\ (forall e, e ∈ f1 ->
                  exists l, e = FileWritten (dataFileName w now id) id l
                            /\ m !! id = Some l /\ l <> []).
Proof.
  unfold flushInstrument. simpl.
  destruct (m !! id) as [[|md rest]|] eqn:Hm; simpl.
  - exists []. rewrite app_nil_r. split; [done|]. split.
    + intros l [= <-]. done.
    + intros e He. by apply elem_of_nil in He.
  - eexists. split; [done|]. split.
    + by intros l [= <-] _.
    + intros e He. apply list_elem_of_singleton in He as ->. by exists (md :: rest).
  - exists []. rewrite app_nil_r. split; [done|]. split; [done|].
    intros e He. by apply elem_of_nil in He.
Qed.

Lemma flush_fold (w : MarketWatcher.t double) now group :
  forall m out,
  exists m' fs,
    foldl (flushInstrument w now) (m, out) group = (m', out ++ fs)
    /\ (forall id, id ∈ group -> m' !! id = Some [])
    /\ (forall id, id ∉ group -> m' !! id = m !! id)
    /\ (forall id l, id ∈ group -> m !! id = Some l -> l <> [] ->
                     FileWritten (dataFileName w now id) id l ∈ fs)
    /\ (forall e, e ∈ fs ->
                  exists id l, e = FileWritten (dataFileName w now id) id l
                               /\ id ∈ group /\ m !! id = Some l /\ l <> [])
    /\ NoDup fs.
Proof.
  induction group as [|id group IH]; intros m out; simpl.
  - exists m, []. rewrite app_nil_r. split; [done|].
    split; [intros ? H; by apply elem_of_nil in H|]. split; [done|].
    split; [intros ? ? H; by apply elem_of_nil in H|].
    split; [intros ? H; by apply elem_of_nil in H | constructor].
  - destruct (flushInstrument_step w now m out id) as (f1 & -> & Hf1 & Hf1').
    destruct (IH (<[id := []]> m) (out ++ f1)) as (m' & fs & -> & Hin & Hout & Hw & Hfs & Hnd).
    exists m', (f1 ++ fs). rewrite app_assoc. split; [done|].
    split; [|split; [|split; [|split]]].
    + intros id' Hid'. destruct (decide (id' ∈ group)) as [Hg|Hg]; [by apply Hin|].
      apply elem_of_cons in Hid' as [->|Hid']; [|done].
      rewrite Hout by done. apply lookup_insert_eq.
    + intros id' Hid'. apply not_elem_of_cons in Hid' as [Hne Hg].
      rewrite Hout by done. by apply lookup_insert_ne.
    + intros id' l Hid' Hl Hnil. apply elem_of_app.
      destruct (decide (id' = id)) as [->|Hne].
      * left. rewrite (Hf1 l Hl Hnil). apply list_elem_of_singleton. done.
      * right. apply elem_of_cons in Hid' as [->|Hid']; [done|].
        apply Hw; [done| |done]. by rewrite lookup_insert_ne.
    + intros e He. apply elem_of_app in He as [He|He].
      * destruct (Hf1' e He) as (l & -> & Hl & Hnil). exists id, l.
        split; [done|]. split; [apply elem_of_cons; by left | done].
      * destruct (Hfs e He) as (id' & l & -> & Hg & Hl & Hnil).
        destruct (decide (id' = id)) as [->|Hne].
        { rewrite lookup_insert_eq in Hl. by injection Hl as <-. }
        rewrite lookup_insert_ne in Hl by done. exists id', l.
        split; [done|]. split; [apply elem_of_cons; by right | done].
    + apply NoDup_app. split; [|split; [|done]].
      * destruct (m !! id) as [l|] eqn:Hm.
        -- destruct l as [|md rest].
           ++ destruct f1 as [|e f1]; [constructor|].
              destruct (Hf1' e) as (l & _ & Hl & Hnil); [apply elem_of_cons; by left|].
              by injection Hl as <-.
           ++ rewrite (Hf1 (md :: rest)) by done. apply NoDup_singleton.
        -- destruct f1 as [|e f1]; [constructor|].
           destruct (Hf1' e) as (l & _ & Hl & _); [apply elem_of_cons; by left|]. done.
      * intros e He1 He2. destruct (Hf1' e He1) as (l & -> & Hl & Hnil).
        destruct (Hfs _ He2) as (id' & l' & Heq & _ & Hl' & Hnil').
        injection Heq as _ <- <-. rewrite lookup_insert_eq in Hl'.
        by injection Hl' as <-.
Qed.

Lemma flushGroup_at_index now index (w : MarketWatcher.t double) group :
  atIndex (instrumentsToProcess w) index = Some group ->
  exists m' files,
    flushGroup w now index = Some (setDepthMarketDataListMap w m', files)
    /\ (forall id, id ∈ group -> m' !! id = Some [])
    /\ (forall id, id ∉ group -> m' !! id = depthMarketDataListMap w !! id)
    /\ (forall id l, id ∈ group -> depthMarketDataListMap w !! id = Some l -> l <> [] ->
                     FileWritten (dataFileName w now id) id l ∈ files)
    /\ (forall e, e ∈ files ->
                  exists id l, e = FileWritten (dataFileName w now id) id l
                               /\ id ∈ group
                               /\ depthMarketDataListMap w !! id = Some l /\ l <> [])
    /\ NoDup files.
Proof.
  intros Hgroup. unfold MarketWatcher.flushGroup. rewrite Hgroup.
  destruct (flush_fold w now group (depthMarketDataListMap w) [])
    as (m' & fs & Heq & H1 & H2 & H3 & H4 & H5).
  exists m', fs. rewrite Heq. simpl. done.
Qed.

Lemma timesUp_trading_day now index w :
  isTradingDay (currentDate now) = true -> timesUp now index w = flushGroup w now index.
Proof. unfold MarketWatcher.timesUp. by intros ->. Qed.

(** C9.  On a trading day the firing for index [index] clears the buffer
    of every instrument of that entry of [instrumentsToProcess], writes
    the buffers among them that held anything, each once and with what
    it held, writes nothing else, and leaves the buffer of every other
    instrument and every other field as it was. *)
Theorem timesUp_flushes_exactly_the_group now index w group :
  isTradingDay (currentDate now) = true ->
  atIndex (instrumentsToProcess w) index = Some group ->
  exists m' files,
    timesUp now index w = Some (setDepthMarketDataListMap w m', files)
    /\ (forall id, id ∈ group -> m' !! id = Some [])
    /\ (forall id, id ∉ group -> m' !! id = depthMarketDataListMap w !! id)
    /\ (forall id l, id ∈ group -> depthMarketDataListMap w !! id = Some l -> l <> [] ->
                     FileWritten (dataFileName w now id) id l ∈ files)
    /\ (forall e, e ∈ files ->
                  exists id l, e = FileWritten (dataFileName w now id) id l
                               /\ id ∈ group
                               /\ depthMarketDataListMap w !! id = Some l /\ l <> [])
    /\ NoDup files.
Proof.
  intros Hday Hgroup. rewrite timesUp_trading_day by done.
  by apply flushGroup_at_index.
Qed.


(** C3, amended.  On a day the calendar reports as not a trading day the
    firing empties the buffer table and writes nothing, unless the day
    before is a trading day and the next trading day is two days on (the
    watcher's test for a normal Saturday, which does not look at the day
    of the week): then a firing at 05:00:00.000 or earlier does exactly
    what it does on a trading day, and a later one empties the table. *)
Theorem timesUp_on_non_trading_day now index w :
  isTradingDay (currentDate now) = false ->
  let today := currentDate now in
  let normalSaturday :=
    isTradingDay (today - 1) = true /\ nextTradingDay today = today + 2 in
  (~ normalSaturday \/ QTime.fromHM 5 0 < currentTime now ->
     timesUp now index w = Some (setDepthMarketDataListMap w ∅, []))
  /\ (normalSaturday -> currentTime now <= QTime.fromHM 5 0 ->
      timesUp now index w
      = MarketWatcher.timesUp (fun _ => true) nextTradingDay now index w).
Proof.
  intros Hday today normalSaturday. subst normalSaturday today.
  unfold MarketWatcher.timesUp, MarketWatcher.isNormalSaturday, QDate.addDays, QTime.gt.
  cbv zeta. rewrite Hday. simpl negb. cbv iota.
  set (today := currentDate now).
  replace (today + -1) with (today - 1) by lia.
  split.
  - intros [Hn|Hlate].
    + destruct (isTradingDay (today - 1)) eqn:Hy; simpl; [|done].
      destruct (Z.eqb_spec (nextTradingDay today) (today + 2)) as [Heq|Hne]; simpl; [|done].
      exfalso. apply Hn. done.
    + destruct (Z.ltb_spec (QTime.fromHM 5 0) (currentTime now)) as [_|Hle]; [|lia].
      by rewrite orb_true_r.
  - intros [Hy Hnext] Hearly. rewrite Hy, Hnext, Z.eqb_refl. simpl.
    destruct (Z.ltb_spec (QTime.fromHM 5 0) (currentTime now)) as [Hlt|_]; [lia|done].
Qed.


(** ** The validator table *)

Lemma collectTimes_kept day earliest ranges :
  collectTimes day earliest ranges = keptBoundaries mapTimeCall day earliest ranges.
Proof.
  unfold MarketWatcher.collectTimes, keptBoundaries, keptRanges.
  enough (H : forall acc,
             foldl (fun times r =>
                      let rangeStart := mapTimeCall day (secondsOfDay r.1) in
                      if earliest <=? rangeStart
                      then times ++ [rangeStart; mapTimeCall day (secondsOfDay r.2)]
                      else times) acc ranges
             = acc ++ (filter (fun r => earliest <= mapTimeCall day (secondsOfDay r.1)) ranges
                         ≫= boundaryPair mapTimeCall day)) by apply H.
  induction ranges as [|r ranges IH]; intros acc; simpl.
  - by rewrite app_nil_r.
  - rewrite IH, filter_cons.
    destruct (Z.leb_spec earliest (mapTimeCall day (secondsOfDay r.1))) as [Hle|Hlt].
    + case_decide; [|done]. simpl. by rewrite <- app_assoc.
    + case_decide; [lia|done].
Qed.

Lemma foldl_addValidator_lookup day earliest ids (tv : gmap string TimeValidator.t) id :
  foldl (addValidator day earliest) tv ids !! id
  = match keptBoundaries mapTimeCall day earliest (getTradingTimeRanges id) with
    | [] => tv !! id
    | x :: times =>
        if decide (id ∈ ids) then Some (TimeValidator.create (merge_sort Z.le (x :: times)))
        else tv !! id
    end.
Proof.
  revert tv. induction ids as [|i ids IH]; intros tv; cbn [foldl].
  - destruct (keptBoundaries _ _ _ _); [done|]. rewrite decide_False; [done|].
    apply not_elem_of_nil.
  - rewrite IH. unfold MarketWatcher.addValidator.
    destruct (decide (i = id)) as [->|Hne].
    + rewrite collectTimes_kept.
      destruct (keptBoundaries _ _ _ _) as [|x times]; [done|].
      rewrite lookup_insert_eq. rewrite (decide_True (P := id ∈ id :: ids)).
      * by destruct (decide (id ∈ ids)).
      * apply elem_of_cons. by left.
    + assert (Hother : forall (m : gmap string TimeValidator.t),
                 match collectTimes day earliest (getTradingTimeRanges i) with
                 | [] => m
                 | x :: times => <[i := TimeValidator.create (merge_sort Z.le (x :: times))]> m
                 end !! id = m !! id).
      { intros m. destruct (collectTimes _ _ _); [done|]. by apply lookup_insert_ne. }
      rewrite Hother.
      destruct (keptBoundaries _ _ _ _) as [|x times]; [done|].
      destruct (decide (id ∈ ids)) as [Hin|Hnin].
      * rewrite decide_True; [done|]. apply elem_of_cons. by right.
      * rewrite decide_False; [done|]. apply not_elem_of_cons. done.
Qed.

Lemma setupTimeValidators_lookup (w : MarketWatcher.t double) id :
  timeValidators (setupTimeValidators w) !! id
  = match keptBoundaries mapTimeCall (mapTime w) (earliestTime w) (getTradingTimeRanges id) with
    | [] => None
    | x :: times =>
        if decide (id ∈ subscribeSet w)
        then Some (TimeValidator.create (merge_sort Z.le (x :: times)))
        else None
    end.
Proof.
  unfold MarketWatcher.setupTimeValidators. simpl.
  rewrite foldl_addValidator_lookup, lookup_empty.
  destruct (keptBoundaries _ _ _ _); [done|].
  destruct (decide (id ∈ subscribeSet w)) as [Hin|Hnin].
  - rewrite decide_True; [done|]. by apply elem_of_elements.
  - rewrite decide_False; [done|]. by rewrite elem_of_elements.
Qed.

(** C6, amended.  The validator of a subscribed instrument is built from
    the sorted list of the mapped starts and ends of exactly those of its
    sessions whose mapped start is not earlier than [earliestTime]: a
    session is kept or dropped as a whole, by its start alone.  When no
    session is kept, or the instrument is not subscribed, there is no
    validator. *)
Theorem setupTimeValidators_keeps_sessions_by_start (w : MarketWatcher.t double) id :
  let day := mapTime w in
  let ranges := getTradingTimeRanges id in
  let kept := keptBoundaries mapTimeCall day (earliestTime w) ranges in
  timeValidators (setupTimeValidators w) !! id
  = (if decide (id ∈ subscribeSet w /\ kept <> [])
     then Some (TimeValidator.create (merge_sort Z.le kept)) else None)
  /\ Sorted Z.le (merge_sort Z.le kept)
  /\ merge_sort Z.le kept ≡ₚ kept
  /\ (forall r, r ∈ ranges ->
                earliestTime w <= mapTimeCall day (secondsOfDay r.1) ->
                mapTimeCall day (secondsOfDay r.1) ∈ kept
                /\ mapTimeCall day (secondsOfDay r.2) ∈ kept)
  /\ (forall b, b ∈ kept ->
                exists r, r ∈ ranges
                          /\ earliestTime w <= mapTimeCall day (secondsOfDay r.1)
                          /\ (b = mapTimeCall day (secondsOfDay r.1)
                              \/ b = mapTimeCall day (secondsOfDay r.2))).
Proof.
  intros day ranges kept.
  split; [|split; [apply (Sorted_merge_sort Z.le) | split; [apply merge_sort_Permutation|]]].
  - rewrite setupTimeValidators_lookup. fold day ranges kept.
    destruct kept as [|x times].
    + rewrite decide_False; [done|]. by intros [_ H].
    + destruct (decide (id ∈ subscribeSet w)) as [Hin|Hnin].
      * by rewrite decide_True.
      * rewrite decide_False; [done|]. by intros [H _].
  - subst kept. unfold keptBoundaries, keptRanges. split.
    + intros r Hr Hle.
      assert (Hk : r ∈ filter (fun r => earliestTime w <= mapTimeCall day (secondsOfDay r.1)) ranges)
        by by apply list_elem_of_filter.
      split; apply list_elem_of_bind; exists r; (split; [|done]); unfold boundaryPair.
      * apply elem_of_cons. by left.
      * apply elem_of_cons. right. apply elem_of_cons. by left.
    + intros b Hb. apply list_elem_of_bind in Hb as (r & Hb & Hr).
      apply list_elem_of_filter in Hr as [Hle Hr]. exists r.
      split; [done|]. split; [done|]. unfold boundaryPair in Hb.
      apply elem_of_cons in Hb as [->|Hb]; [by left|].
      apply list_elem_of_singleton in Hb as ->. by right.
Qed.

(** C8.  Neither rebuild reads the table it replaces: building the
    validator table again, or the timer table again, from the same
    subscribe set, session tables, trading day and earliest time leaves
    the watcher as the first build left it, with the same boundary lists,
    the same groups and the same armed time points. *)
Theorem rebuilds_are_idempotent (w : MarketWatcher.t double) :
  setupTimeValidators (setupTimeValidators w) = setupTimeValidators w
  /\ (setupTimers (setupTimers w).1).1 = (setupTimers w).1
  /\ (forall id, timeValidators (setupTimeValidators (setupTimeValidators w)) !! id
                 = timeValidators (setupTimeValidators w) !! id)
  /\ instrumentsToProcess (setupTimers (setupTimers w).1).1
     = instrumentsToProcess (setupTimers w).1
  /\ multiTimer (setupTimers (setupTimers w).1).1 = multiTimer (setupTimers w).1
  /\ (forall points, TimerCreated points ∈ (setupTimers (setupTimers w).1).2
                     <-> TimerCreated points ∈ (setupTimers w).2).
Proof.
  assert (Hv : setupTimeValidators (setupTimeValidators w) = setupTimeValidators w) by done.
  assert (Ht : (setupTimers (setupTimers w).1).1 = (setupTimers w).1).
  { unfold MarketWatcher.setupTimers. rewrite !collectTimePoints_maps. done. }
  split; [done|]. split; [done|]. split; [by rewrite Hv|].
  split; [by rewrite Ht|]. split; [by rewrite Ht|].
  intros points. unfold MarketWatcher.setupTimers. rewrite !collectTimePoints_maps.
  cbn [fst snd subscribeSet setTimerTable multiTimer].
  rewrite !elem_of_app, !list_elem_of_singleton.
  destruct (multiTimer w); rewrite ?elem_of_nil, ?list_elem_of_singleton; (forget_collaborators; naive_solver).
Qed.


(** ** Ticks *)

Lemma setTimeValidators_same (w : MarketWatcher.t double) :
  setTimeValidators w (timeValidators w) = w.
Proof. by destruct w. Qed.

Lemma processDepthMarketData_no_validator tick elapsed (w : MarketWatcher.t double) :
  timeValidators w !! InstrumentID tick = None ->
  processDepthMarketData tick elapsed w = (w, []).
Proof.
  intros Hnone. unfold MarketWatcher.processDepthMarketData. rewrite Hnone.
  simpl. by rewrite setTimeValidators_same.
Qed.

(** C10, amended.  A tick is published exactly when its instrument has a
    validator and [validate] returns a positive value, and then with that
    value as its time; it is appended to the instrument's buffer, with
    the local time stamped into its [ActionDay], exactly when it is
    published and [saveDepthMarketData] is on.  Otherwise nothing is
    emitted and no buffer changes.  Every published time is positive. *)
Theorem processDepthMarketData_publishes_iff_validated tick elapsed (w : MarketWatcher.t double) :
  let id := InstrumentID tick in
  let r := processDepthMarketData tick elapsed w in
  let verdict v :=
    (TimeValidator.validate v (mapTimeCall (mapTime w) (hhmmssToSec (UpdateTime tick)))
                            (UpdateMillisec tick)).1 in
  (forall v, timeValidators w !! id = Some v -> 0 < verdict v ->
     r.2 = [newMarketData id (verdict v) (LastPrice tick) (Volume tick)
              (AskPrice1 tick) (AskVolume1 tick) (BidPrice1 tick) (BidVolume1 tick)]
     /\ depthMarketDataListMap r.1
        = if saveDepthMarketData w
          then <[id := default [] (depthMarketDataListMap w !! id)
                         ++ [withActionDay tick (stampActionDay (ActionDay tick) elapsed)]]>
                 (depthMarketDataListMap w)
          else depthMarketDataListMap w)
  /\ (~ (exists v, timeValidators w !! id = Some v /\ 0 < verdict v) ->
      r.2 = [] /\ depthMarketDataListMap r.1 = depthMarketDataListMap w)
  /\ (forall i t p q a av b bv, newMarketData i t p q a av b bv ∈ r.2 -> 0 < t).
Proof.
  intros id r verdict. subst r. unfold MarketWatcher.processDepthMarketData. fold id.
  destruct (timeValidators w !! id) as [v0|] eqn:Hv.
  - fold (verdict v0). cbn [fst snd].
    destruct (Z.ltb_spec 0 (verdict v0)) as [Hpos|Hneg].
    + split; [|split].
      * intros v [= <-] _. split; [done|]. by destruct (saveDepthMarketData w).
      * intros Hno. exfalso. apply Hno. by exists v0.
      * intros i t p q a av b bv Hin. cbn [snd] in Hin.
        apply list_elem_of_singleton in Hin. by injection Hin as -> -> _ _ _ _ _ _.
    + split; [|split].
      * intros v [= <-] Hpos. lia.
      * done.
      * intros i t p q a av b bv Hin. by apply elem_of_nil in Hin.
  - simpl. split; [done|]. split; [done|].
    intros i t p q a av b bv Hin. by apply elem_of_nil in Hin.
Qed.


Lemma validate_verdict v s ms :
  let r := TimeValidator.validate v s ms in
  TimeValidator.tradetimes r.2 = TimeValidator.tradetimes v
  /\ ((r.1 = 0 /\ r.2 = v)
      \/ (r.1 = TimeValidator.finalTimestamp s ms
          /\ TimeValidator.inSession (TimeValidator.tradetimes v) s = true
          /\ TimeValidator.lastAccepted r.2 = Some r.1
          /\ forall l, TimeValidator.lastAccepted v = Some l -> l < r.1)).
Proof.
  unfold TimeValidator.validate, TimeValidator.lastAccepted, TimeValidator.REJECT.
  destruct v as [times last]. simpl.
  destruct times as [|x times]; [by split; [|left]|].
  destruct (TimeValidator.inSession (x :: times) s) eqn:Hin; cbn [negb];
    [|by split; [|left]].
  destruct last as [[s0 ms0]|].
  - destruct (Z.leb_spec (TimeValidator.finalTimestamp s ms)
                         (TimeValidator.finalTimestamp s0 ms0)) as [Hle|Hgt].
    + by split; [|left].
    + split; [done|]. right. simpl. split; [done|]. split; [done|]. split; [done|].
      intros l [= <-]. done.
  - split; [done|]. right. simpl. split; [done|]. split; [done|]. split; [done|]. done.
Qed.

Lemma emittedFor_signal id i t (p : double) q a av b bv :
  emittedFor id [newMarketData i t p q a av b bv] = if decide (i = id) then [t] else [].
Proof. unfold emittedFor. simpl. by destruct (decide (i = id)). Qed.

Lemma emittedFor_app id (es1 es2 : list (effect double)) :
  emittedFor id (es1 ++ es2) = emittedFor id es1 ++ emittedFor id es2.
Proof. apply omap_app. Qed.

Lemma processDepthMarketData_step tick elapsed (w : MarketWatcher.t double) id :
  let r := processDepthMarketData tick elapsed w in
  mapTime r.1 = mapTime w
  /\ ((emittedFor id r.2 = []
       /\ forall l, lastOf w id = Some l -> exists l', lastOf r.1 id = Some l' /\ l <= l')
      \/ (exists t, emittedFor id r.2 = [t]
                    /\ lastOf r.1 id = Some t
                    /\ forall l, lastOf w id = Some l -> l < t)).
Proof.
  intros r. subst r. unfold MarketWatcher.processDepthMarketData.
  destruct (timeValidators w !! InstrumentID tick) as [v|] eqn:Hv.
  - pose proof (validate_verdict v (mapTimeCall (mapTime w) (hhmmssToSec (UpdateTime tick)))
                  (UpdateMillisec tick)) as Hval.
    set (res := TimeValidator.validate v _ _) in *. cbv zeta in Hval.
    destruct Hval as [_ Hval]. cbn [fst snd].
    assert (Hlast : forall (w' : MarketWatcher.t double),
               timeValidators w' = <[InstrumentID tick := res.2]> (timeValidators w) ->
               lastOf w' id
               = if decide (InstrumentID tick = id) then TimeValidator.lastAccepted res.2
                 else lastOf w id).
    { intros w' Hw'. unfold lastOf. rewrite Hw'. rewrite lookup_insert.
      by destruct (decide (InstrumentID tick = id)). }
    assert (Hold : InstrumentID tick = id -> lastOf w id = TimeValidator.lastAccepted v).
    { intros <-. unfold lastOf. by rewrite Hv. }
    destruct (Z.ltb_spec 0 res.1) as [Hpos|Hneg]; cbn [fst snd].
    + split; [by destruct (saveDepthMarketData w)|].
      destruct Hval as [[H0 _]|(Hfin & _ & Hacc & Hlt)]; [lia|].
      assert (Hlast' : lastOf
                  (if saveDepthMarketData w
                   then setDepthMarketDataListMap
                          (setTimeValidators w (<[InstrumentID tick := res.2]> (timeValidators w)))
                          (<[InstrumentID tick :=
                               default [] (depthMarketDataListMap w !! InstrumentID tick)
                               ++ [withActionDay tick (stampActionDay (ActionDay tick) elapsed)]]>
                             (depthMarketDataListMap w))
                   else setTimeValidators w (<[InstrumentID tick := res.2]> (timeValidators w))) id
                = if decide (InstrumentID tick = id) then TimeValidator.lastAccepted res.2
                  else lastOf w id).
      { apply Hlast. by destruct (saveDepthMarketData w). }
      rewrite Hlast', emittedFor_signal.
      destruct (decide (InstrumentID tick = id)) as [Heq|Hne].
      * right. exists res.1. split; [done|]. split; [done|].
        intros l Hl. apply Hlt. by rewrite <- Hold.
      * left. split; [done|]. intros l Hl. exists l. split; [done|lia].
    + split; [done|]. left. split; [done|].
      rewrite (Hlast (setTimeValidators w (<[InstrumentID tick := res.2]> (timeValidators w)))
                     eq_refl).
      destruct (decide (InstrumentID tick = id)) as [Heq|Hne].
      * destruct Hval as [[_ ->]|(Hfin & _ & Hacc & Hlt)].
        -- intros l Hl. exists l. rewrite <- (Hold Heq). split; [done|lia].
        -- intros l Hl. exists res.1. split; [done|].
           rewrite (Hold Heq) in Hl. apply Hlt in Hl. lia.
      * intros l Hl. exists l. split; [done|lia].
  - cbn [fst snd]. rewrite setTimeValidators_same. simpl. split; [done|].
    left. split; [done|]. intros l Hl. exists l. split; [done|lia].
Qed.


Lemma processDepthMarketData_validators tick elapsed (w : MarketWatcher.t double) :
  timeValidators (processDepthMarketData tick elapsed w).1
  = match timeValidators w !! InstrumentID tick with
    | Some v =>
        <[InstrumentID tick :=
            (TimeValidator.validate v (mapTimeCall (mapTime w) (hhmmssToSec (UpdateTime tick)))
                                    (UpdateMillisec tick)).2]> (timeValidators w)
    | None => timeValidators w
    end.
Proof.
  unfold MarketWatcher.processDepthMarketData.
  destruct (timeValidators w !! InstrumentID tick) as [v|]; cbn [fst snd].
  - destruct (0 <? _); [by destruct (saveDepthMarketData w) | done].
  - done.
Qed.

Lemma processDepthMarketData_unvalidated tick elapsed (w : MarketWatcher.t double) id :
  timeValidators w !! id = None ->
  let r := processDepthMarketData tick elapsed w in
  timeValidators r.1 !! id = None
  /\ emittedFor id r.2 = []
  /\ depthMarketDataListMap r.1 !! id = depthMarketDataListMap w !! id.
Proof.
  intros Hnone r. subst r.
  destruct (decide (InstrumentID tick = id)) as [Heq|Hne].
  - rewrite processDepthMarketData_no_validator by by rewrite Heq. done.
  - split.
    + rewrite processDepthMarketData_validators.
      destruct (timeValidators w !! InstrumentID tick); [|done].
      by rewrite lookup_insert_ne.
    + unfold MarketWatcher.processDepthMarketData.
      destruct (timeValidators w !! InstrumentID tick) as [v|]; cbn [fst snd].
      * destruct (0 <? _); cbn [fst snd]; [|done].
        rewrite emittedFor_signal, decide_False by done. split; [done|].
        destruct (saveDepthMarketData w); [|done]. simpl. by rewrite lookup_insert_ne.
      * done.
Qed.

Lemma processTicks_acc ticks :
  forall (w : MarketWatcher.t double) es,
    foldl (fun acc tick =>
             let r := processDepthMarketData tick.1 tick.2 acc.1 in (r.1, acc.2 ++ r.2))
          (w, es) ticks
    = ((processTicks hhmmssToSec mapTimeCall ticks w).1,
       es ++ (processTicks hhmmssToSec mapTimeCall ticks w).2).
Proof.
  unfold processTicks.
  induction ticks as [|tick ticks IH]; intros w es; cbn [foldl].
  - by rewrite app_nil_r.
  - cbn [fst snd]. rewrite (IH _ (es ++ _)), (IH _ ([] ++ _)). cbn [fst snd].
    by rewrite app_nil_l, app_assoc.
Qed.

Lemma processTicks_cons tick ticks (w : MarketWatcher.t double) :
  processTicks hhmmssToSec mapTimeCall (tick :: ticks) w
  = ((processTicks hhmmssToSec mapTimeCall ticks
        (processDepthMarketData tick.1 tick.2 w).1).1,
     (processDepthMarketData tick.1 tick.2 w).2
     ++ (processTicks hhmmssToSec mapTimeCall ticks
           (processDepthMarketData tick.1 tick.2 w).1).2).
Proof.
  unfold processTicks at 1. cbn [foldl fst snd]. rewrite app_nil_l.
  apply processTicks_acc.
Qed.

Lemma processTicks_sorted ticks :
  forall (w : MarketWatcher.t double) id,
    StronglySorted Z.lt (emittedFor id (processTicks hhmmssToSec mapTimeCall ticks w).2)
    /\ forall l, lastOf w id = Some l ->
                 Forall (Z.lt l) (emittedFor id (processTicks hhmmssToSec mapTimeCall ticks w).2).
Proof.
  induction ticks as [|tick ticks IH]; intros w id.
  - split; [constructor|]. intros l _. constructor.
  - rewrite processTicks_cons. cbn [snd]. rewrite emittedFor_app.
    destruct (processDepthMarketData_step tick.1 tick.2 w id) as [_ Hstep].
    destruct (IH (processDepthMarketData tick.1 tick.2 w).1 id) as [Hsorted Hbound].
    destruct Hstep as [[-> Hmono]|(t & -> & Hlast & Hlt)]; simpl.
    + split; [done|]. intros l Hl. destruct (Hmono l Hl) as (l' & Hl' & Hle).
      eapply Forall_impl; [by apply Hbound|]. simpl. lia.
    + split.
      * constructor; [done|]. by apply Hbound.
      * intros l Hl. constructor; [by apply Hlt|].
        eapply Forall_impl; [by apply Hbound|]. simpl. intros x Hx.
        specialize (Hlt l Hl). lia.
Qed.



Lemma processTicks_unvalidated ticks :
  forall (w : MarketWatcher.t double) id,
    timeValidators w !! id = None ->
    let r := processTicks hhmmssToSec mapTimeCall ticks w in
    timeValidators r.1 !! id = None
    /\ emittedFor id r.2 = []
    /\ depthMarketDataListMap r.1 !! id = depthMarketDataListMap w !! id.
Proof.
  induction ticks as [|tick ticks IH]; intros w id Hnone; [done|].
  rewrite processTicks_cons. cbn [fst snd]. rewrite emittedFor_app.
  destruct (processDepthMarketData_unvalidated tick.1 tick.2 w id Hnone) as (H1 & -> & <-).
  destruct (IH _ id H1) as (H2 & -> & H3). done.
Qed.

Lemma timesUp_in_range now index (w : MarketWatcher.t double) :
  0 <= index < Z.of_nat (length (instrumentsToProcess w)) ->
  is_Some (timesUp now index w).
Proof.
  intros Hrange.
  assert (Hflush : is_Some (flushGroup w now index)).
  { unfold MarketWatcher.flushGroup, atIndex.
    destruct (Z.ltb_spec index 0) as [Hneg|_]; [lia|].
    destruct (lookup_lt_is_Some_2 (instrumentsToProcess w) (Z.to_nat index)) as [g ->]; [lia|].
    done. }
  unfold MarketWatcher.timesUp.
  destruct (negb (isTradingDay (currentDate now))); [|done].
  destruct (_ || _); done.
Qed.

(** C7, amended.  An instrument whose session table is missing, or all of
    whose sessions start before [earliestTime], gets no validator: every
    tick of it is dropped, with no signal and no change to its buffer.
    Building the timer table always succeeds, and a firing with an index
    inside the table completes.  An instrument without session closes is
    in no entry of [instrumentsToProcess]; the table is built from the
    session closes alone and does not consult [earliestTime]. *)
Theorem instrument_without_sessions (w : MarketWatcher.t double) id :
  getTradingTimeRanges id = []
  \/ keptBoundaries mapTimeCall (mapTime w) (earliestTime w) (getTradingTimeRanges id) = [] ->
  (timeValidators (setupTimeValidators w) !! id = None
   /\ forall ticks,
       let r := processTicks hhmmssToSec mapTimeCall ticks (setupTimeValidators w) in
       emittedFor id r.2 = []
       /\ depthMarketDataListMap r.1 !! id = depthMarketDataListMap w !! id)
  /\ (getEndPoints id = [] ->
      forall g, g ∈ instrumentsToProcess (setupTimers w).1 -> id ∉ g)
  /\ (forall now index,
        0 <= index < Z.of_nat (length (instrumentsToProcess (setupTimers w).1)) ->
        is_Some (timesUp now index (setupTimers w).1)).
Proof.
  intros Hnone.
  assert (Hkept : keptBoundaries mapTimeCall (mapTime w) (earliestTime w)
                    (getTradingTimeRanges id) = []).
  { destruct Hnone as [->|H]; done. }
  assert (Hv : timeValidators (setupTimeValidators w) !! id = None).
  { rewrite setupTimeValidators_lookup. by rewrite Hkept. }
  split; [split; [done|]|split].
  - intros ticks r. subst r.
    destruct (processTicks_unvalidated ticks (setupTimeValidators w) id Hv) as (_ & He & Hb).
    done.
  - intros Hends g Hg Hin. destruct (setupTimers_table w) as (Hgroups & _).
    rewrite Hgroups in Hg. apply list_elem_of_fmap in Hg as (t & -> & _).
    apply closingAt_elem in Hin as [_ Ht]. rewrite Hends in Ht. by apply elem_of_nil in Ht.
  - intros now index. apply timesUp_in_range.
Qed.

(** ** Rebuilds *)

Lemma foldl_insert_union (l : list string) :
  forall s : gset string, foldl (fun s i => {[ i ]} ∪ s) s l = s ∪ list_to_set l.
Proof.
  induction l as [|i l IH]; intros s; simpl.
  - (forget_collaborators; set_solver).
  - rewrite IH. (forget_collaborators; set_solver).
Qed.


Lemma setupTimers_state (w : MarketWatcher.t double) :
  (setupTimers w).1
  = setTimerTable w
      (closingAt getEndPoints (elements (subscribeSet w)) <$> closeTimes getEndPoints w)
      ((fun tp => QTime.addSecs tp 60) <$> closeTimes getEndPoints w).
Proof.
  unfold MarketWatcher.setupTimers, closeTimes. rewrite collectTimePoints_maps. cbn [fst].
  unfold setTimerTable. f_equal.
  apply list_fmap_ext. intros _ t _. apply buildEndPointsMap_lookup.
Qed.

Lemma subscribeInstruments_tables instruments updateIni (w : MarketWatcher.t double) :
  let r := subscribeInstruments instruments updateIni w in
  let w1 := setSubscribeSet w (subscribeSet w ∪ list_to_set instruments) in
  let w2 := if saveDepthMarketData w then (setupTimers w1).1 else w1 in
  r.1 = (if loggedIn w then setupTimeValidators w2 else w2)
  /\ r.2 = (if loggedIn w then [SubscribeMarketData instruments] else [])
           ++ (if saveDepthMarketData w
               then map (checkDirectory w1) instruments ++ (setupTimers w1).2 else [])
           ++ (if updateIni then [SettingsWritten instruments] else []).
Proof.
  unfold MarketWatcher.subscribeInstruments. rewrite foldl_insert_union.
  cbn [saveDepthMarketData loggedIn setSubscribeSet].
  destruct (saveDepthMarketData w); [|done].
  split; [|done]. cbn [fst snd].
  unfold MarketWatcher.setupTimers. rewrite collectTimePoints_maps. done.
Qed.

(** C5, amended.  A login that reports a trading day other than the
    recorded one gives the day to the time mapper first and then replaces
    the validator table by one built with it; the timer table is left as
    it is (it holds times of day, which do not depend on the trading
    day), and a login that reports the recorded day rebuilds neither.
    [subscribeInstruments] adds the instruments to the subscribe set,
    rebuilds the timer table exactly when [saveDepthMarketData] is on
    and the validator table exactly when the watcher is logged in. *)
Theorem rebuilds_on_login_and_subscription (w : MarketWatcher.t double) :
  (forall tradingDay,
      tradingDay <> currentTradingDay w ->
      let r := customEvent (RSP_USER_LOGIN tradingDay) w in
      mapTime r.1 = tradingDay
      /\ currentTradingDay r.1 = tradingDay
      /\ timeValidators r.1
         = timeValidators (setupTimeValidators (setTradingDay w tradingDay))
      /\ (forall id, timeValidators r.1 !! id
                     = match keptBoundaries mapTimeCall tradingDay (earliestTime w)
                               (getTradingTimeRanges id) with
                       | [] => None
                       | x :: times =>
                           if decide (id ∈ subscribeSet w)
                           then Some (TimeValidator.create (merge_sort Z.le (x :: times)))
                           else None
                       end)
      /\ instrumentsToProcess r.1 = instrumentsToProcess w
      /\ multiTimer r.1 = multiTimer w
      /\ r.2 = [tradingDayChanged tradingDay;
                SubscribeMarketData (elements (subscribeSet w))])
  /\ (let r := customEvent (RSP_USER_LOGIN (currentTradingDay w)) w in
      r.1 = setLoggedIn w true
      /\ r.2 = [SubscribeMarketData (elements (subscribeSet w))])
  /\ (forall instruments updateIni,
        let r := subscribeInstruments instruments updateIni w in
        let w1 := setSubscribeSet w (subscribeSet w ∪ list_to_set instruments) in
        subscribeSet r.1 = subscribeSet w ∪ list_to_set instruments
        /\ (if saveDepthMarketData w
            then instrumentsToProcess r.1 = instrumentsToProcess (setupTimers w1).1
                 /\ multiTimer r.1 = multiTimer (setupTimers w1).1
                 /\ (exists points, multiTimer r.1 = Some points /\ TimerCreated points ∈ r.2)
            else instrumentsToProcess r.1 = instrumentsToProcess w
                 /\ multiTimer r.1 = multiTimer w
                 /\ forall points, TimerCreated points ∉ r.2)
        /\ (if loggedIn w
            then timeValidators r.1 = timeValidators (setupTimeValidators w1)
            else timeValidators r.1 = timeValidators w)).
Proof.
  split; [|split].
  - intros tradingDay Hne r. subst r. unfold MarketWatcher.customEvent.
    cbn [currentTradingDay setLoggedIn]. rewrite decide_False by done.
    cbn [fst snd]. split; [done|]. split; [done|]. split; [done|].
    split; [|done]. intros id.
    change (timeValidators (setupTimeValidators (setTradingDay (setLoggedIn w true) tradingDay))
              !! id = match keptBoundaries mapTimeCall tradingDay (earliestTime w)
                              (getTradingTimeRanges id) with
                      | [] => None
                      | x :: times =>
                          if decide (id ∈ subscribeSet w)
                          then Some (TimeValidator.create (merge_sort Z.le (x :: times)))
                          else None
                      end).
    by rewrite setupTimeValidators_lookup.
  - unfold MarketWatcher.customEvent. cbn [currentTradingDay setLoggedIn].
    by rewrite decide_True.
  - intros instruments updateIni r w1.
    destruct (subscribeInstruments_tables instruments updateIni w) as [Hst Heff].
    fold r w1 in Hst, Heff. rewrite Hst, Heff.
    destruct (setupTimers_table w1) as (_ & Htimer & Hcreated).
    rewrite (setupTimers_state w1) in *.
    split; [by destruct (loggedIn w), (saveDepthMarketData w)|].
    split.
    + destruct (saveDepthMarketData w).
      * split; [by destruct (loggedIn w)|]. split; [by destruct (loggedIn w)|].
        eexists. split; [destruct (loggedIn w); exact Htimer|].
        apply elem_of_app. right. apply elem_of_app. left. apply elem_of_app. by right.
      * split; [by destruct (loggedIn w)|]. split; [by destruct (loggedIn w)|].
        intros points Hin.
        destruct (loggedIn w), updateIni; simpl in Hin;
          repeat (apply elem_of_cons in Hin as [Hin|Hin]; [done|]);
          by apply elem_of_nil in Hin.
    + by destruct (loggedIn w), (saveDepthMarketData w).
Qed.


(** ** Groups *)

Lemma schedule_elem id t : t ∈ schedule getEndPoints id <-> t ∈ getEndPoints id.
Proof. unfold schedule. by rewrite merge_sort_Permutation, elem_of_remove_dups. Qed.

Lemma closeTimes_NoDup (w : MarketWatcher.t double) : NoDup (closeTimes getEndPoints w).
Proof.
  unfold closeTimes, sortedKeys. rewrite merge_sort_Permutation.
  apply NoDup_fst_map_to_list.
Qed.

(** C2, amended.  The timer table has one entry per distinct session
    close, in ascending order of the closes, and the entry of a close
    holds exactly the subscribed instruments with a session closing then:
    instruments are grouped by close, not by whole schedule.  A firing
    for an index flushes instruments of that entry only.  Instruments
    with the same schedule are in the same entries.  With three
    instruments of one close each, two at the same time and one at
    another, two time points are armed and the entry of the shared close
    holds the two and not the third. *)
Theorem setupTimers_groups_by_close (w : MarketWatcher.t double) :
  let ids := elements (subscribeSet w) in
  let keys := closeTimes getEndPoints w in
  let w' := (setupTimers w).1 in
  instrumentsToProcess w' = closingAt getEndPoints ids <$> keys
  /\ multiTimer w' = Some ((fun tp => QTime.addSecs tp 60) <$> keys)
  /\ (forall i t,
        keys !! i = Some t ->
        exists g,
          instrumentsToProcess w' !! i = Some g
          /\ (forall id, id ∈ g <-> id ∈ subscribeSet w /\ t ∈ getEndPoints id)
          /\ forall now,
              isTradingDay (currentDate now) = true ->
              exists m' files,
                timesUp now (Z.of_nat i) w' = Some (setDepthMarketDataListMap w' m', files)
                /\ forall f id l, FileWritten f id l ∈ files ->
                                  id ∈ subscribeSet w /\ t ∈ getEndPoints id)
  /\ (forall a b g,
        schedule getEndPoints a = schedule getEndPoints b ->
        a ∈ subscribeSet w -> b ∈ subscribeSet w ->
        g ∈ instrumentsToProcess w' -> (a ∈ g <-> b ∈ g))
  /\ (forall a b c t1 t2,
        subscribeSet w = {[ a; b; c ]} -> a <> c -> b <> c -> t1 <> t2 ->
        getEndPoints a = [t1] -> getEndPoints b = [t1] -> getEndPoints c = [t2] ->
        length keys = 2%nat
        /\ exists i g, keys !! i = Some t1
                       /\ instrumentsToProcess w' !! i = Some g
                       /\ a ∈ g /\ b ∈ g /\ c ∉ g).
Proof.
  intros ids keys w'.
  destruct (setupTimers_table w) as (Hgroups & Htimer & _). fold ids keys w' in Hgroups, Htimer.
  assert (Hmember : forall t id,
             id ∈ closingAt getEndPoints ids t <-> id ∈ subscribeSet w /\ t ∈ getEndPoints id).
  { intros t id. rewrite closingAt_elem. unfold ids. by rewrite elem_of_elements. }
  assert (Hentry : forall i t, keys !! i = Some t ->
             instrumentsToProcess w' !! i = Some (closingAt getEndPoints ids t)).
  { intros i t Hi. rewrite Hgroups, list_lookup_fmap, Hi. done. }
  split; [done|]. split; [done|]. split; [|split].
  - intros i t Hi. exists (closingAt getEndPoints ids t).
    split; [by apply Hentry|]. split; [by apply Hmember|].
    intros now Hday.
    rewrite timesUp_trading_day by done.
    destruct (flushGroup_at_index now (Z.of_nat i) w' (closingAt getEndPoints ids t))
      as (m' & files & Heq & _ & _ & _ & Hfiles & _).
    { unfold atIndex. destruct (Z.ltb_spec (Z.of_nat i) 0); [lia|].
      rewrite Nat2Z.id. by apply Hentry. }
    exists m', files. split; [done|].
    intros f id l Hin. destruct (Hfiles _ Hin) as (id' & l' & Hfile & Hg & _).
    injection Hfile as _ -> _. by apply Hmember.
  - intros a b g Hsched Ha Hb Hg. rewrite Hgroups in Hg.
    apply list_elem_of_fmap in Hg as (t & -> & _). rewrite !Hmember.
    rewrite <- (schedule_elem a), <- (schedule_elem b), Hsched. (forget_collaborators; tauto).
  - intros a b c t1 t2 Hset Hac Hbc Ht Ha Hb Hc.
    assert (Hkeys : forall t, t ∈ keys <-> t ∈ [t1; t2]).
    { intros t. unfold keys. rewrite closeTimes_elem, Hset. split.
      - intros (id & Hid & Hin).
        assert (Hcases : id = a \/ id = b \/ id = c) by (forget_collaborators; set_solver).
        destruct Hcases as [-> | [-> | ->]].
        + rewrite Ha in Hin. (forget_collaborators; set_solver).
        + rewrite Hb in Hin. (forget_collaborators; set_solver).
        + rewrite Hc in Hin. (forget_collaborators; set_solver).
      - intros Hin. assert (Hcases : t = t1 \/ t = t2) by (forget_collaborators; set_solver).
        destruct Hcases as [-> | ->].
        + exists a. rewrite Ha. (forget_collaborators; set_solver).
        + exists c. rewrite Hc. (forget_collaborators; set_solver). }
    assert (Hperm : keys ≡ₚ [t1; t2]).
    { apply NoDup_Permutation; [apply closeTimes_NoDup| |done].
      apply NoDup_cons. split; [(forget_collaborators; set_solver)|]. apply NoDup_singleton. }
    split; [by rewrite Hperm|].
    assert (Hin : t1 ∈ keys) by (apply Hkeys; (forget_collaborators; set_solver)).
    apply list_elem_of_lookup in Hin as [i Hi].
    exists i, (closingAt getEndPoints ids t1).
    split; [done|]. split; [by apply Hentry|]. rewrite !Hmember, Hset, Ha, Hb, Hc.
    split; [(forget_collaborators; set_solver)|]. split; [(forget_collaborators; set_solver)|].
    intros [_ Hin]. (forget_collaborators; set_solver).
Qed.


(** ** More properties of the watcher *)

Local Abbreviation step :=
  (@call double getEndPoints getTradingTimeRanges hhmmssToSec dateToUtcTimestamp mapTimeCall
         isTradingDay nextTradingDay).
Local Abbreviation run :=
  (@calls double getEndPoints getTradingTimeRanges hhmmssToSec dateToUtcTimestamp mapTimeCall
          isTradingDay nextTradingDay).

Lemma timesUp_fields now index (w w' : MarketWatcher.t double) es :
  timesUp now index w = Some (w', es) ->
  exists m, w' = setDepthMarketDataListMap w m.
Proof.
  assert (Hflush : flushGroup w now index = Some (w', es) ->
                   exists m, w' = setDepthMarketDataListMap w m).
  { unfold MarketWatcher.flushGroup. destruct (atIndex _ _); [|done].
    intros [= <- _]. by eexists. }
  unfold MarketWatcher.timesUp.
  destruct (negb (isTradingDay (currentDate now))); [|done].
  destruct (_ || _); [|done]. intros [= <- _]. by eexists.
Qed.

Lemma tick_touches_own_instrument tick elapsed (w : MarketWatcher.t double) :
  let r := processDepthMarketData tick elapsed w in
  setDepthMarketDataListMap (setTimeValidators r.1 (timeValidators w))
                            (depthMarketDataListMap w) = w
  /\ dom (timeValidators r.1) = dom (timeValidators w)
  /\ (forall id, id <> InstrumentID tick ->
                 timeValidators r.1 !! id = timeValidators w !! id
                 /\ depthMarketDataListMap r.1 !! id = depthMarketDataListMap w !! id)
  /\ (r.2 = []
      \/ exists time,
          r.2 = [newMarketData (InstrumentID tick) time (LastPrice tick) (Volume tick)
                   (AskPrice1 tick) (AskVolume1 tick) (BidPrice1 tick) (BidVolume1 tick)]).
Proof.
  intros r. subst r. unfold MarketWatcher.processDepthMarketData.
  destruct (timeValidators w !! InstrumentID tick) as [v|] eqn:Hv; cbn [fst snd].
  - set (res := TimeValidator.validate v _ _).
    assert (Hdom : dom (<[InstrumentID tick := res.2]> (timeValidators w))
                   = dom (timeValidators w)).
    { rewrite dom_insert_L. apply elem_of_dom_2 in Hv.
      apply set_eq. intros x. rewrite elem_of_union, elem_of_singleton.
      split; [intros [->|H]; done | by right]. }
    destruct (0 <? res.1); cbn [fst snd].
    + destruct (saveDepthMarketData w) eqn:Hsave.
      * split; [by destruct w|]. split; [done|]. split; [|right; by eexists].
        intros id Hne. simpl. by rewrite !lookup_insert_ne.
      * split; [by destruct w|]. split; [done|]. split; [|right; by eexists].
        intros id Hne. simpl. by rewrite lookup_insert_ne.
    + split; [by destruct w|]. split; [done|]. split; [|by left].
      intros id Hne. simpl. by rewrite lookup_insert_ne.
  - simpl. split; [by destruct w|]. split; [done|]. split; [done|]. by left.
Qed.

(** X2.  A tick touches nothing but the validator and the buffer of its
    own instrument: every other field of the watcher, the set of
    instruments that have a validator, and the validator and buffer of
    every other instrument stay as they were, and at most one signal is
    emitted, for the tick's instrument and with the tick's prices. *)
Theorem processDepthMarketData_frame tick elapsed (w : MarketWatcher.t double) :
  let r := processDepthMarketData tick elapsed w in
  setDepthMarketDataListMap (setTimeValidators r.1 (timeValidators w))
                            (depthMarketDataListMap w) = w
  /\ dom (timeValidators r.1) = dom (timeValidators w)
  /\ (forall id, id <> InstrumentID tick ->
                 timeValidators r.1 !! id = timeValidators w !! id
                 /\ depthMarketDataListMap r.1 !! id = depthMarketDataListMap w !! id)
  /\ (r.2 = []
      \/ exists time,
          r.2 = [newMarketData (InstrumentID tick) time (LastPrice tick) (Volume tick)
                   (AskPrice1 tick) (AskVolume1 tick) (BidPrice1 tick) (BidVolume1 tick)]).
Proof. apply tick_touches_own_instrument. Qed.


Lemma subscribeInstruments_fields instruments updateIni (w : MarketWatcher.t double) :
  let r := subscribeInstruments instruments updateIni w in
  loggedIn r.1 = loggedIn w
  /\ saveDepthMarketData r.1 = saveDepthMarketData w
  /\ saveDepthMarketDataPath r.1 = saveDepthMarketDataPath w
  /\ subscribeSet r.1 = subscribeSet w ∪ list_to_set instruments
  /\ (if saveDepthMarketData w
      then timerTableCurrent getEndPoints r.1
      else instrumentsToProcess r.1 = instrumentsToProcess w
           /\ multiTimer r.1 = multiTimer w).
Proof.
  intros r. destruct (subscribeInstruments_tables instruments updateIni w) as [Hst _].
  fold r in Hst. rewrite Hst. unfold timerTableCurrent.
  rewrite (setupTimers_state (setSubscribeSet w (subscribeSet w ∪ list_to_set instruments))).
  clear Hst r. destruct w as [s save path logged day mapper earliest tv groups timer buffers].
  cbn [loggedIn saveDepthMarketData]. destruct logged, save; repeat split; reflexivity.
Qed.

Lemma timerTableCurrent_ext (w w' : MarketWatcher.t double) :
  subscribeSet w' = subscribeSet w ->
  instrumentsToProcess w' = instrumentsToProcess w ->
  multiTimer w' = multiTimer w ->
  timerTableCurrent getEndPoints w -> timerTableCurrent getEndPoints w'.
Proof. unfold timerTableCurrent, closeTimes. by intros -> -> ->. Qed.

Lemma call_fields c (w w' : MarketWatcher.t double) es :
  step c w = Some (w', es) ->
  saveDepthMarketData w' = saveDepthMarketData w
  /\ saveDepthMarketDataPath w' = saveDepthMarketDataPath w
  /\ subscribeSet w' = subscribeSet w ∪ requested [c]
  /\ loggedIn w' = match c with
                   | CustomEvent (RSP_USER_LOGIN _) => true
                   | CustomEvent (FRONT_DISCONNECTED _) => false
                   | _ => loggedIn w
                   end
  /\ (saveDepthMarketData w = true -> timerTableCurrent getEndPoints w ->
      timerTableCurrent getEndPoints w').
Proof.
  assert (Hkeep : forall w1 : MarketWatcher.t double,
             saveDepthMarketData w1 = saveDepthMarketData w ->
             saveDepthMarketDataPath w1 = saveDepthMarketDataPath w ->
             subscribeSet w1 = subscribeSet w ->
             instrumentsToProcess w1 = instrumentsToProcess w ->
             multiTimer w1 = multiTimer w ->
             saveDepthMarketData w1 = saveDepthMarketData w
             /\ saveDepthMarketDataPath w1 = saveDepthMarketDataPath w
             /\ subscribeSet w1 = subscribeSet w ∪ ∅
             /\ (saveDepthMarketData w = true -> timerTableCurrent getEndPoints w ->
                 timerTableCurrent getEndPoints w1)).
  { intros w1 H1 H2 H3 H4 H5. split; [done|]. split; [done|].
    split; [by rewrite union_empty_r_L|]. intros _. by apply timerTableCurrent_ext. }
  destruct c as [event|instruments updateIni|now index|today]; cbn [call requested].
  - intros [= Hst]. apply (f_equal fst) in Hst. cbn [fst] in Hst. rewrite <- Hst. clear Hst.
    assert (Hsplit : forall (w1 : MarketWatcher.t double) (b : bool),
               saveDepthMarketData w1 = saveDepthMarketData w ->
               saveDepthMarketDataPath w1 = saveDepthMarketDataPath w ->
               subscribeSet w1 = subscribeSet w ->
               instrumentsToProcess w1 = instrumentsToProcess w ->
               multiTimer w1 = multiTimer w ->
               loggedIn w1 = b ->
               saveDepthMarketData w1 = saveDepthMarketData w
               /\ saveDepthMarketDataPath w1 = saveDepthMarketDataPath w
               /\ subscribeSet w1 = subscribeSet w ∪ ∅
               /\ loggedIn w1 = b
               /\ (saveDepthMarketData w = true -> timerTableCurrent getEndPoints w ->
                   timerTableCurrent getEndPoints w1)).
    { intros w1 b H1 H2 H3 H4 H5 H6.
      destruct (Hkeep w1 H1 H2 H3 H4 H5) as (? & ? & ? & ?). done. }
    destruct event as [| | |tradingDay| | | | |field elapsed|]; try (by apply Hsplit).
    + unfold MarketWatcher.customEvent. cbn [currentTradingDay setLoggedIn].
      destruct (decide (currentTradingDay w = tradingDay)); by apply Hsplit.
    + unfold MarketWatcher.customEvent.
      destruct (tick_touches_own_instrument field elapsed w) as (Hframe & _).
      apply Hsplit; rewrite <- Hframe at 2; done.
  - intros [= Hst]. apply (f_equal fst) in Hst. cbn [fst] in Hst. rewrite <- Hst. clear Hst.
    destruct (subscribeInstruments_fields instruments updateIni w)
      as (Hlogged & Hsave & Hpath & Hset & Htimer).
    split; [done|]. split; [done|].
    split; [by rewrite union_empty_r_L|]. split; [done|].
    intros Hon _. by rewrite Hon in Htimer.
  - intros Hfire. apply timesUp_fields in Hfire as [m ->].
    destruct (Hkeep (setDepthMarketDataListMap w m)) as (? & ? & ? & ?); done.
  - intros [= <- _].
    destruct (Hkeep (setWeekend dateToUtcTimestamp nextTradingDay today w)) as (? & ? & ? & ?);
      done.
Qed.

(** X1.  [getStatus] is ["Ready"] after the reply to a login and
    ["NotReady"] after a disconnect, and no other event, slot or timer
    firing changes it. *)
Theorem getStatus_follows_login c (w w' : MarketWatcher.t double) es :
  step c w = Some (w', es) ->
  getStatus w' = match c with
                 | CustomEvent (RSP_USER_LOGIN _) => "Ready"
                 | CustomEvent (FRONT_DISCONNECTED _) => "NotReady"
                 | _ => getStatus w
                 end.
Proof.
  intros Hcall. destruct (call_fields c w w' es Hcall) as (_ & _ & _ & Hlogged & _).
  unfold getStatus. rewrite Hlogged.
  destruct c as [event| | |]; [|done..]. by destruct event.
Qed.

Lemma calls_cons c cs (w w2 : MarketWatcher.t double) es :
  run (c :: cs) w = Some (w2, es) ->
  exists w1 e1 e2, step c w = Some (w1, e1) /\ run cs w1 = Some (w2, e2) /\ es = e1 ++ e2.
Proof.
  cbn [calls]. destruct (step c w) as [[w1 e1]|]; [|done]. cbn [fst snd].
  destruct (run cs w1) as [[w2' e2]|] eqn:Hrest; [|done]. cbn [fst snd].
  intros [= <- <-]. by exists w1, e1, e2.
Qed.

Lemma calls_fields cs :
  forall (w w' : MarketWatcher.t double) es,
    run cs w = Some (w', es) ->
    saveDepthMarketData w' = saveDepthMarketData w
    /\ saveDepthMarketDataPath w' = saveDepthMarketDataPath w
    /\ subscribeSet w' = subscribeSet w ∪ requested cs
    /\ (saveDepthMarketData w = true -> timerTableCurrent getEndPoints w ->
        timerTableCurrent getEndPoints w').
Proof.
  induction cs as [|c cs IH]; intros w w' es Hrun.
  - injection Hrun as <- _. cbn [requested]. by rewrite union_empty_r_L.
  - apply calls_cons in Hrun as (w1 & e1 & e2 & Hstep & Hrest & _).
    destruct (call_fields c w w1 e1 Hstep) as (Hs1 & Hp1 & Hset1 & _ & Ht1).
    destruct (IH w1 w' e2 Hrest) as (Hs2 & Hp2 & Hset2 & Ht2).
    split; [congruence|]. split; [congruence|]. split.
    + rewrite Hset2, Hset1. destruct c; cbn [requested];
        rewrite ?union_empty_r_L, <- ?(assoc_L (∪)); done.
    + intros Hon Hcur. apply Ht2; [congruence|]. by apply Ht1.
Qed.

(** X3.  The subscribe set only grows: after any run of events, slot calls
    and timer firings it is the set from before the run together with
    every instrument a [subscribeInstruments] call of the run names, so
    nothing is ever unsubscribed and [getSubscribeList] lists each of
    these instruments once; the run leaves the saving switch and the
    saving path as they were. *)
Theorem subscriptions_only_grow cs (w w' : MarketWatcher.t double) es :
  run cs w = Some (w', es) ->
  subscribeSet w' = subscribeSet w ∪ requested cs
  /\ (forall i, i ∈ getSubscribeList w' <-> i ∈ getSubscribeList w \/ i ∈ requested cs)
  /\ NoDup (getSubscribeList w')
  /\ saveDepthMarketData w' = saveDepthMarketData w
  /\ saveDepthMarketDataPath w' = saveDepthMarketDataPath w.
Proof.
  intros Hrun. destruct (calls_fields cs w w' es Hrun) as (Hsave & Hpath & Hset & _).
  split; [done|]. split; [|split; [apply NoDup_elements | done]].
  intros i. unfold getSubscribeList. rewrite !elem_of_elements, Hset. apply elem_of_union.
Qed.

(** X4.  With saving on, once the timer table is the one built for the
    subscribe set it stays so through any run of events, slot calls and
    timer firings; so after the run the timer holds as many time points as
    there are entries in [instrumentsToProcess], and a firing for any
    index below that number completes. *)
Theorem timer_table_stays_current cs (w w' : MarketWatcher.t double) es :
  saveDepthMarketData w = true ->
  timerTableCurrent getEndPoints w ->
  run cs w = Some (w', es) ->
  timerTableCurrent getEndPoints w'
  /\ exists points,
      multiTimer w' = Some points
      /\ length points = length (instrumentsToProcess w')
      /\ forall now index,
          0 <= index < Z.of_nat (length points) -> is_Some (timesUp now index w').
Proof.
  intros Hon Hcur Hrun.
  destruct (calls_fields cs w w' es Hrun) as (_ & _ & _ & Hkeep).
  specialize (Hkeep Hon Hcur). split; [done|].
  destruct Hkeep as [Hgroups Htimer]. eexists. split; [exact Htimer|].
  assert (Hlen : length ((fun tp => QTime.addSecs tp 60) <$> closeTimes getEndPoints w')
                 = length (instrumentsToProcess w')).
  { by rewrite Hgroups, !length_fmap. }
  split; [done|]. intros now index Hrange. apply timesUp_in_range. by rewrite <- Hlen.
Qed.



Lemma processDepthMarketData_buffer tick elapsed (w : MarketWatcher.t double) id :
  let r := processDepthMarketData tick elapsed w in
  saveDepthMarketData r.1 = saveDepthMarketData w
  /\ default [] (depthMarketDataListMap r.1 !! id)
     = default [] (depthMarketDataListMap w !! id)
       ++ (if saveDepthMarketData w
           then (fun _ => withActionDay tick (stampActionDay (ActionDay tick) elapsed))
                  <$> emittedFor id r.2
           else [])
  /\ (emittedFor id r.2 <> [] -> InstrumentID tick = id).
Proof.
  intros r. subst r. unfold MarketWatcher.processDepthMarketData.
  destruct (timeValidators w !! InstrumentID tick) as [v|]; cbn [fst snd].
  - destruct (0 <? _); cbn [fst snd].
    + rewrite emittedFor_signal.
      destruct (saveDepthMarketData w) eqn:Hsave; cbn [saveDepthMarketData].
      * split; [by destruct w|]. cbn [depthMarketDataListMap setDepthMarketDataListMap].
        destruct (decide (InstrumentID tick = id)) as [<-|Hne].
        -- rewrite lookup_insert_eq. done.
        -- rewrite lookup_insert_ne by done. by rewrite app_nil_r.
      * split; [by destruct w|]. rewrite app_nil_r. split; [done|].
        destruct (decide (InstrumentID tick = id)); done.
    + split; [by destruct w|]. split; [|done].
      destruct (saveDepthMarketData w); by rewrite app_nil_r.
  - split; [by destruct w|]. split; [|done]. simpl.
    destruct (saveDepthMarketData w); by rewrite app_nil_r.
Qed.

Lemma processTicks_buffer ticks :
  forall (w : MarketWatcher.t double) id,
    let r := processTicks hhmmssToSec mapTimeCall ticks w in
    exists appended,
      default [] (depthMarketDataListMap r.1 !! id)
      = default [] (depthMarketDataListMap w !! id) ++ appended
      /\ Forall (fun md => InstrumentID md = id
                           /\ exists tick elapsed,
                               (tick, elapsed) ∈ ticks
                               /\ md = withActionDay tick
                                         (stampActionDay (ActionDay tick) elapsed))
                appended
      /\ length appended
         = (if saveDepthMarketData w then length (emittedFor id r.2) else 0%nat).
Proof.
  induction ticks as [|[tick elapsed] ticks IH]; intros w id r; subst r.
  - exists []. rewrite app_nil_r. split; [done|]. split; [constructor|].
    by destruct (saveDepthMarketData w).
  - rewrite processTicks_cons. cbn [fst snd].
    destruct (processDepthMarketData_buffer tick elapsed w id) as (Hsave & Hbuf & Hid).
    destruct (IH (processDepthMarketData tick elapsed w).1 id) as (rest & Hrest & Hall & Hlen).
    rewrite Hsave in Hlen.
    eexists. split; [rewrite Hrest, Hbuf, <- app_assoc; reflexivity|].
    split.
    + apply Forall_app. split.
      * destruct (saveDepthMarketData w); [|constructor].
        destruct (emittedFor id (processDepthMarketData tick elapsed w).2) as [|t l] eqn:He;
          [constructor|].
        apply Forall_fmap, Forall_forall. intros x _. simpl. split.
        -- by apply Hid.
        -- exists tick, elapsed. split; [apply elem_of_cons; by left | done].
      * eapply Forall_impl; [exact Hall|]. simpl.
        intros md (Hmd & tick' & elapsed' & Hin & Heq). split; [done|].
        exists tick', elapsed'. split; [apply elem_of_cons; by right | done].
    + rewrite length_app, Hlen, emittedFor_app, length_app.
      destruct (saveDepthMarketData w); [by rewrite length_fmap | done].
Qed.

(** X5.  Over a run of ticks the buffer of an instrument only grows at its
    end: what is appended is one stamped copy of a tick of the run, of
    that instrument, per signal published for it when saving is on, and
    nothing when saving is off. *)
Theorem buffer_grows_with_published ticks :
  forall (w : MarketWatcher.t double) id,
    let r := processTicks hhmmssToSec mapTimeCall ticks w in
    exists appended,
      default [] (depthMarketDataListMap r.1 !! id)
      = default [] (depthMarketDataListMap w !! id) ++ appended
      /\ Forall (fun md => InstrumentID md = id
                           /\ exists tick elapsed,
                               (tick, elapsed) ∈ ticks
                               /\ md = withActionDay tick
                                         (stampActionDay (ActionDay tick) elapsed))
                appended
      /\ length appended
         = (if saveDepthMarketData w then length (emittedFor id r.2) else 0%nat).
Proof. apply processTicks_buffer. Qed.


Lemma flush_fold_nothing (w : MarketWatcher.t double) now group :
  forall m out,
    (forall id, id ∈ group -> default [] (m !! id) = []) ->
    exists m',
      foldl (flushInstrument w now) (m, out) group = (m', out)
      /\ forall id, default [] (m' !! id) = default [] (m !! id).
Proof.
  induction group as [|id group IH]; intros m out Hempty; cbn [foldl].
  - by exists m.
  - unfold flushInstrument at 2. cbn [fst snd].
    rewrite (Hempty id) by (apply elem_of_cons; by left).
    assert (Hsame : forall i, default [] (<[id := []]> m !! i) = default [] (m !! i)).
    { intros i. destruct (decide (id = i)) as [<-|Hne].
      - rewrite lookup_insert_eq. symmetry. apply Hempty, elem_of_cons. by left.
      - by rewrite lookup_insert_ne. }
    destruct (IH (<[id := []]> m) out) as (m' & -> & Hm').
    { intros i Hi. rewrite Hsame. apply Hempty, elem_of_cons. by right. }
    exists m'. split; [done|]. intros i. by rewrite Hm', Hsame.
Qed.

(** X6.  Nothing is written twice: when a firing for an index inside the
    table has completed, the next firing for that index, with no tick in
    between, writes no file, whatever the day and the time, and leaves the
    buffers of that group empty. *)
Theorem refiring_writes_nothing now now' index (w w1 : MarketWatcher.t double) files group :
  atIndex (instrumentsToProcess w) index = Some group ->
  timesUp now index w = Some (w1, files) ->
  exists w2,
    timesUp now' index w1 = Some (w2, [])
    /\ forall id, id ∈ group -> default [] (depthMarketDataListMap w2 !! id) = [].
Proof.
  intros Hgroup Hfirst.
  assert (Hw1 : instrumentsToProcess w1 = instrumentsToProcess w
                /\ forall id, id ∈ group -> default [] (depthMarketDataListMap w1 !! id) = []).
  { revert Hfirst. unfold MarketWatcher.timesUp.
    assert (Hflush : flushGroup w now index = Some (w1, files) ->
                     instrumentsToProcess w1 = instrumentsToProcess w
                     /\ forall id, id ∈ group ->
                                   default [] (depthMarketDataListMap w1 !! id) = []).
    { destruct (flushGroup_at_index now index w group Hgroup)
        as (m' & fs & -> & Hin & _). intros [= <- _]. split; [done|].
      intros id Hid. simpl. by rewrite (Hin id Hid). }
    destruct (negb (isTradingDay (currentDate now))); [|done].
    destruct (_ || _); [|done]. intros [= <- _]. split; [done|].
    intros id _. simpl. by rewrite lookup_empty. }
  destruct Hw1 as [Htable Hempty].
  assert (Hflush : exists w2, flushGroup w1 now' index = Some (w2, [])
                     /\ forall id, id ∈ group ->
                                   default [] (depthMarketDataListMap w2 !! id) = []).
  { unfold MarketWatcher.flushGroup. rewrite Htable, Hgroup.
    destruct (flush_fold_nothing w1 now' group (depthMarketDataListMap w1) [] Hempty)
      as (m' & -> & Hm'). eexists. split; [done|].
    intros id Hid. simpl. rewrite Hm'. by apply Hempty. }
  unfold MarketWatcher.timesUp.
  destruct (negb (isTradingDay (currentDate now'))); [|done].
  destruct (_ || _); [|done]. eexists. split; [done|].
  intros id _. simpl. by rewrite lookup_empty.
Qed.

(** X7.  A firing fails only on the flushing path and only for an index
    outside [instrumentsToProcess]: on a trading day, or before 05:00:00.001
    of a day after a trading day with trading two days on, the firing
    needs [0 <= index < length]; a firing that discards never reads the
    index. *)
Theorem timesUp_fails_only_out_of_range now index (w : MarketWatcher.t double) :
  timesUp now index w = None
  <-> (index < 0 \/ Z.of_nat (length (instrumentsToProcess w)) <= index)
      /\ (isTradingDay (currentDate now) = true
          \/ (isTradingDay (currentDate now - 1) = true
              /\ nextTradingDay (currentDate now) = currentDate now + 2
              /\ currentTime now <= QTime.fromHM 5 0)).
Proof.
  assert (Hflush : flushGroup w now index = None
                   <-> index < 0 \/ Z.of_nat (length (instrumentsToProcess w)) <= index).
  { unfold MarketWatcher.flushGroup, atIndex.
    destruct (Z.ltb_spec index 0) as [Hneg|Hpos]; [split; [by left | done]|].
    destruct (instrumentsToProcess w !! Z.to_nat index) as [g|] eqn:Hg.
    - apply lookup_lt_Some in Hg. split; [done|]. lia.
    - apply lookup_ge_None in Hg. split; [|done]. intros _. right. lia. }
  unfold MarketWatcher.timesUp, MarketWatcher.isNormalSaturday, QDate.addDays, QTime.gt.
  replace (currentDate now + -1) with (currentDate now - 1) by lia.
  destruct (isTradingDay (currentDate now)) eqn:Hday; cbn [negb].
  - rewrite Hflush. split; [intros H; split; [done | by left] | by intros [H _]].
  - destruct (isTradingDay (currentDate now - 1)) eqn:Hprev; cbn [andb negb orb].
    + destruct (Z.eqb_spec (nextTradingDay (currentDate now)) (currentDate now + 2))
        as [Hnext|Hnext]; cbn [negb orb].
      * destruct (Z.ltb_spec (QTime.fromHM 5 0) (currentTime now)) as [Hlate|Hearly].
        -- split; [done|]. intros [_ [H|(_ & _ & H)]]; [done|lia].
        -- rewrite Hflush. split; [|by intros [H _]].
           intros H. split; [done|]. right. done.
      * split; [done|]. intros [_ [H|(_ & H & _)]]; done.
    + split; [done|]. intros [_ [H|(H & _)]]; done.
Qed.


Lemma string_length_app (a b : string) :
  String.length (a +:+ b) = (String.length a + String.length b)%nat.
Proof.
  induction a as [|c a IH]; [reflexivity|].
  change (S (String.length (a +:+ b)) = S (String.length a + String.length b)).
  by rewrite IH.
Qed.

Lemma string_app_inv_tail (a b x : string) : a +:+ x = b +:+ x -> a = b.
Proof.
  revert b. induction a as [|c a IH]; intros [|c' b] Heq.
  - done.
  - apply (f_equal String.length) in Heq. rewrite !string_length_app in Heq.
    simpl in Heq. lia.
  - apply (f_equal String.length) in Heq. rewrite !string_length_app in Heq.
    simpl in Heq. lia.
  - change (String c (a +:+ x) = String c' (b +:+ x)) in Heq.
    injection Heq as -> Heq. f_equal. by apply IH.
Qed.

Lemma string_app_inv_length (a b x y : string) :
  a +:+ x = b +:+ y -> String.length a = String.length b -> a = b /\ x = y.
Proof.
  revert b. induction a as [|c a IH]; intros [|c' b] Heq Hlen; try done.
  change (String c (a +:+ x) = String c' (b +:+ y)) in Heq.
  injection Heq as -> Heq. injection Hlen as Hlen.
  destruct (IH b Heq Hlen) as [-> ->]. done.
Qed.

(** X8.  The name of a data file determines the instrument and the time
    stamp it was made from: two names built with the same saving path and
    with time stamps of the same width (the stamp has a fixed format) are
    equal only for the same instrument and the same stamp, so the files of
    different instruments never collide. *)
Theorem dataFileName_determines_instrument (w : MarketWatcher.t double) now1 now2 a b :
  String.length (currentDateTime now1) = String.length (currentDateTime now2) ->
  dataFileName w now1 a = dataFileName w now2 b ->
  a = b /\ currentDateTime now1 = currentDateTime now2.
Proof.
  unfold dataFileName. intros Hwidth Heq.
  apply (inj (String.app _)) in Heq. apply (inj (String.app _)) in Heq.
  assert (Hlen : String.length a = String.length b).
  { apply (f_equal String.length) in Heq. rewrite !string_length_app in Heq.
    rewrite Hwidth in Heq. lia. }
  destruct (string_app_inv_length _ _ _ _ Heq Hlen) as [-> Hrest].
  split; [done|]. apply (inj (String.app _)) in Hrest.
  by apply string_app_inv_tail in Hrest.
Qed.

(** X9.  The timer table [setupTimers] builds has as many time points as
    groups; no group is empty; a group holds only subscribed instruments
    that have a session close; and every subscribed instrument that has a
    session close is in some group, so none is left out of the flushes. *)
Theorem setupTimers_table_shape (w : MarketWatcher.t double) :
  let w' := (setupTimers w).1 in
  (exists points, multiTimer w' = Some points
                  /\ length points = length (instrumentsToProcess w'))
  /\ (forall g, g ∈ instrumentsToProcess w' ->
                g <> [] /\ forall id, id ∈ g -> id ∈ subscribeSet w /\ getEndPoints id <> [])
  /\ (forall id, id ∈ subscribeSet w -> getEndPoints id <> [] ->
                 exists g, g ∈ instrumentsToProcess w' /\ id ∈ g).
Proof.
  intros w'. destruct (setupTimers_table w) as (Hgroups & Htimer & _).
  fold w' in Hgroups, Htimer.
  assert (Hmember : forall t id,
             id ∈ closingAt getEndPoints (elements (subscribeSet w)) t
             <-> id ∈ subscribeSet w /\ t ∈ getEndPoints id).
  { intros t id. by rewrite closingAt_elem, elem_of_elements. }
  split; [|split].
  - eexists. split; [exact Htimer|]. by rewrite Hgroups, !length_fmap.
  - intros g Hg. rewrite Hgroups in Hg. apply list_elem_of_fmap in Hg as (t & -> & Ht).
    apply closeTimes_elem in Ht as (id0 & Hid0 & Hclose). split.
    + intros Hnil. assert (Hin : id0 ∈ closingAt getEndPoints (elements (subscribeSet w)) t)
        by by apply Hmember.
      rewrite Hnil in Hin. by apply elem_of_nil in Hin.
    + intros id Hid. apply Hmember in Hid as [Hsub Hclose']. split; [done|].
      intros Hnil. rewrite Hnil in Hclose'. by apply elem_of_nil in Hclose'.
  - intros id Hsub Hends. destruct (getEndPoints id) as [|t ts] eqn:He; [done|].
    exists (closingAt getEndPoints (elements (subscribeSet w)) t). split.
    + rewrite Hgroups. apply list_elem_of_fmap. exists t. split; [done|].
      apply closeTimes_elem. exists id. split; [done|]. rewrite He. apply elem_of_cons. by left.
    + apply Hmember. split; [done|]. rewrite He. apply elem_of_cons. by left.
Qed.

Lemma keptBoundaries_length day earliest ranges :
  length (keptBoundaries mapTimeCall day earliest ranges)
  = (2 * length (keptRanges mapTimeCall day earliest ranges))%nat.
Proof.
  unfold keptBoundaries. induction (keptRanges mapTimeCall day earliest ranges) as [|r l IH];
    [done|].
  cbn [mbind list_bind length app boundaryPair]. simpl. rewrite IH. lia.
Qed.

(** X10.  In the validator table [setupTimeValidators] builds, only
    subscribed instruments have a validator, and every validator is built
    from a sorted list of an even number of boundaries, two for each kept
    session and at least two, with nothing accepted yet. *)
Theorem setupTimeValidators_table_shape (w : MarketWatcher.t double) id v :
  timeValidators (setupTimeValidators w) !! id = Some v ->
  id ∈ subscribeSet w
  /\ TimeValidator.latest v = None
  /\ Sorted Z.le (TimeValidator.tradetimes v)
  /\ exists sessions,
      length (TimeValidator.tradetimes v) = (2 * sessions)%nat
      /\ (1 <= sessions <= length (getTradingTimeRanges id))%nat.
Proof.
  rewrite setupTimeValidators_lookup.
  pose proof (keptBoundaries_length (mapTime w) (earliestTime w) (getTradingTimeRanges id))
    as Hlen.
  destruct (keptBoundaries mapTimeCall (mapTime w) (earliestTime w) (getTradingTimeRanges id))
    as [|x times] eqn:Hkept; [done|].
  destruct (decide (id ∈ subscribeSet w)) as [Hin|]; [|done].
  intros [= <-]. split; [done|]. split; [done|].
  split; [apply (Sorted_merge_sort Z.le)|].
  exists (length (keptRanges mapTimeCall (mapTime w) (earliestTime w) (getTradingTimeRanges id))).
  cbn [TimeValidator.tradetimes TimeValidator.create].
  split; [by rewrite merge_sort_Permutation|].
  split; [simpl in Hlen; lia|]. unfold keptRanges. apply length_filter.
Qed.


Local Abbreviation setWeekend :=
  (@MarketWatcher.setWeekend double dateToUtcTimestamp nextTradingDay).

Lemma subscribeInstruments_again l1 u1 l2 u2 (w : MarketWatcher.t double) :
  (subscribeInstruments l2 u2 (subscribeInstruments l1 u1 w).1).1
  = (subscribeInstruments (l1 ++ l2) u2 w).1.
Proof.
  destruct (subscribeInstruments_tables l1 u1 w) as [-> _].
  destruct (subscribeInstruments_tables (l1 ++ l2) u2 w) as [-> _].
  match goal with
  | |- (subscribeInstruments l2 u2 ?x).1 = _ =>
      destruct (subscribeInstruments_tables l2 u2 x) as [-> _]
  end.
  rewrite !setupTimers_state, list_to_set_app_L, (assoc_L (∪)).
  destruct w as [s save path logged day mapper earliest tv groups timer buffers].
  cbn [loggedIn saveDepthMarketData]. destruct logged, save; reflexivity.
Qed.

(** X11.  Subscribing composes by union and repeats harmlessly:
    subscribing one list and then another leaves the watcher as
    subscribing their concatenation at once does, and subscribing the same
    list a second time changes nothing. *)
Theorem subscribeInstruments_composes l1 u1 l2 u2 (w : MarketWatcher.t double) :
  (subscribeInstruments l2 u2 (subscribeInstruments l1 u1 w).1).1
  = (subscribeInstruments (l1 ++ l2) u2 w).1
  /\ (subscribeInstruments l1 u2 (subscribeInstruments l1 u1 w).1).1
     = (subscribeInstruments l1 u1 w).1.
Proof.
  split; [apply subscribeInstruments_again|].
  rewrite subscribeInstruments_again.
  destruct (subscribeInstruments_tables (l1 ++ l1) u2 w) as [-> _].
  destruct (subscribeInstruments_tables l1 u1 w) as [-> _].
  rewrite list_to_set_app_L, (assoc_L (∪)), <- (assoc_L (∪) (subscribeSet w)), (idemp_L (∪)).
  done.
Qed.

(** X12.  An instrument subscribed while the watcher is logged out gets no
    validator from [subscribeInstruments], and a login that reports the
    recorded trading day does not build one either: the instrument is in
    the subscribe set and in the request sent to the feed, but every tick
    of it is dropped until the validator table is rebuilt. *)
Theorem offline_subscription_has_no_validator instruments updateIni id
        (w : MarketWatcher.t double) :
  loggedIn w = false ->
  id ∈ instruments ->
  timeValidators w !! id = None ->
  let r := customEvent (RSP_USER_LOGIN (currentTradingDay w))
             (subscribeInstruments instruments updateIni w).1 in
  id ∈ subscribeSet r.1
  /\ loggedIn r.1 = true
  /\ (exists ids, r.2 = [SubscribeMarketData ids] /\ id ∈ ids)
  /\ timeValidators r.1 !! id = None
  /\ forall ticks,
      let t := processTicks hhmmssToSec mapTimeCall ticks r.1 in
      emittedFor id t.2 = []
      /\ depthMarketDataListMap t.1 !! id = depthMarketDataListMap w !! id.
Proof.
  intros Hout Hin Hnone r.
  destruct (subscribeInstruments_tables instruments updateIni w) as [Hst _].
  rewrite Hout, !setupTimers_state in Hst.
  set (w1 := (subscribeInstruments instruments updateIni w).1) in *.
  assert (Hfields : currentTradingDay w1 = currentTradingDay w
                    /\ timeValidators w1 = timeValidators w
                    /\ depthMarketDataListMap w1 = depthMarketDataListMap w
                    /\ subscribeSet w1 = subscribeSet w ∪ list_to_set instruments).
  { rewrite Hst. by destruct (saveDepthMarketData w). }
  destruct Hfields as (Hday & Hvalidators & Hbuffers & Hset).
  assert (Hr : r = (setLoggedIn w1 true, [SubscribeMarketData (elements (subscribeSet w1))])).
  { unfold r, MarketWatcher.customEvent. cbn [currentTradingDay setLoggedIn].
    by rewrite Hday, decide_True. }
  rewrite Hr. cbn [fst snd].
  assert (Hmember : id ∈ subscribeSet w1).
  { rewrite Hset. apply elem_of_union. right. by apply elem_of_list_to_set. }
  assert (Hv : timeValidators (setLoggedIn w1 true) !! id = None).
  { cbn [timeValidators setLoggedIn]. by rewrite Hvalidators. }
  split; [done|]. split; [done|].
  split; [eexists; split; [done|]; by apply elem_of_elements|]. split; [done|].
  intros ticks.
  destruct (processTicks_unvalidated ticks (setLoggedIn w1 true) id Hv) as (_ & He & Hb).
  split; [done|]. rewrite Hb. cbn [depthMarketDataListMap setLoggedIn]. by rewrite Hbuffers.
Qed.


Lemma keptBoundaries_nonempty day earliest ranges :
  keptBoundaries mapTimeCall day earliest ranges <> []
  <-> exists r, r ∈ ranges /\ earliest <= mapTimeCall day (secondsOfDay r.1).
Proof.
  pose proof (keptBoundaries_length day earliest ranges) as Hlen. split.
  - intros Hne. destruct (keptRanges mapTimeCall day earliest ranges) as [|r l] eqn:Hkept.
    + destruct (keptBoundaries mapTimeCall day earliest ranges); [done | simpl in Hlen; lia].
    + exists r. assert (Hr : r ∈ keptRanges mapTimeCall day earliest ranges)
        by (rewrite Hkept; apply elem_of_cons; by left).
      unfold keptRanges in Hr. apply list_elem_of_filter in Hr as [Hle Hr]. done.
  - intros (r & Hr & Hle) Hnil. rewrite Hnil in Hlen.
    assert (Hk : r ∈ keptRanges mapTimeCall day earliest ranges)
      by (unfold keptRanges; by apply list_elem_of_filter).
    destruct (keptRanges mapTimeCall day earliest ranges); [by apply elem_of_nil in Hk|].
    simpl in Hlen. lia.
Qed.

(** X13.  [setWeekend] moves the earliest acceptable time to eight hours
    after the start of the next trading day and nothing else: ticks are
    handled exactly as before until the validator table is rebuilt, and
    after a rebuild an instrument has a validator exactly when it is
    subscribed and one of its sessions starts at or after that time. *)
Theorem setWeekend_takes_effect_at_rebuild today (w : MarketWatcher.t double) :
  let floor := dateToUtcTimestamp (nextTradingDay today) + 8 * 3600 in
  earliestTime (setWeekend today w) = floor
  /\ (forall tick elapsed,
        processDepthMarketData tick elapsed (setWeekend today w)
        = (setWeekend today (processDepthMarketData tick elapsed w).1,
           (processDepthMarketData tick elapsed w).2))
  /\ (forall id,
        is_Some (timeValidators (setupTimeValidators (setWeekend today w)) !! id)
        <-> id ∈ subscribeSet w
            /\ exists r, r ∈ getTradingTimeRanges id
                         /\ floor <= mapTimeCall (mapTime w) (secondsOfDay r.1)).
Proof.
  intros floor. split; [done|]. split.
  - intros tick elapsed. unfold MarketWatcher.processDepthMarketData.
    cbn [timeValidators mapTime MarketWatcher.setWeekend setEarliestTime].
    destruct (timeValidators w !! InstrumentID tick) as [v|]; cbn [fst snd].
    + destruct (0 <? _); cbn [fst snd]; [|done].
      destruct w as [s save path logged day mapper earliest tv groups timer buffers].
      cbn. by destruct save.
    + done.
  - intros id. rewrite setupTimeValidators_lookup.
    cbn [mapTime earliestTime subscribeSet MarketWatcher.setWeekend setEarliestTime].
    fold floor. rewrite <- keptBoundaries_nonempty.
    destruct (keptBoundaries mapTimeCall (mapTime w) floor (getTradingTimeRanges id)) as [|x l].
    + split; [by intros [? ?] | by intros [_ ?]].
    + destruct (decide (id ∈ subscribeSet w)) as [Hin|Hout].
      * split; [done | by eexists].
      * split; [by intros [? ?] | by intros [? _]].
Qed.

(** X14.  After the constructor the subscribe set is the configured list;
    saving is on exactly when it is configured and the saving directory
    exists or could be created; with saving on the timer table is the one
    built for the subscribe set and the directory of every subscribed
    instrument has been checked, with saving off no member function has
    run and the timer fields are untouched; every configured front is
    registered. *)
Theorem construct_saving_needs_directory settings dirExists mkpathOk
        (w0 : MarketWatcher.t double) :
  let r := construct getEndPoints settings dirExists mkpathOk w0 in
  subscribeSet r.1 = list_to_set (SubscribeList settings)
  /\ (saveDepthMarketData r.1 = true
      <-> SaveDepthMarketData settings = true /\ (dirExists = true \/ mkpathOk = true))
  /\ (saveDepthMarketData r.1 = true ->
      timerTableCurrent getEndPoints r.1
      /\ forall i, i ∈ SubscribeList settings ->
                   Member (CheckDirectory (SaveDepthMarketDataPath settings +:+ "/" +:+ i))
                   ∈ r.2)
  /\ (saveDepthMarketData r.1 = false ->
      multiTimer r.1 = multiTimer w0
      /\ instrumentsToProcess r.1 = instrumentsToProcess w0
      /\ forall e, Member e ∉ r.2)
  /\ (forall address, address ∈ FrontSites settings ->
                      RegisterFront ("tcp://" +:+ address) ∈ r.2).
Proof.
  intros r. subst r. unfold construct.
  set (w1 := mkWatcher _ _ _ _ _ _ _ _ _ _ _).
  assert (Hsave : saveDepthMarketData w1
                  = SaveDepthMarketData settings && (dirExists || mkpathOk)).
  { unfold w1. cbn [saveDepthMarketData].
    by destruct dirExists, (SaveDepthMarketData settings), mkpathOk. }
  assert (Hw1 : saveDepthMarketData w1
                = (if dirExists then SaveDepthMarketData settings
                   else if SaveDepthMarketData settings && negb mkpathOk then false
                        else SaveDepthMarketData settings)) by done.
  rewrite <- Hw1. clear Hw1.
  assert (Hfront : forall (pre post : list (startEffect double)) address,
             address ∈ FrontSites settings ->
             RegisterFront ("tcp://" +:+ address)
             ∈ pre ++ (CreateFtdcMdApi (FlowPath settings) :: RegisterSpi
                         :: map (fun a => RegisterFront ("tcp://" +:+ a)) (FrontSites settings))
                   ++ post).
  { intros pre post address Hin. apply elem_of_app. right. apply elem_of_app. left.
    do 2 (apply elem_of_cons; right). apply list_elem_of_fmap. by exists address. }
  assert (Hiff : SaveDepthMarketData settings && (dirExists || mkpathOk) = true
                 <-> SaveDepthMarketData settings = true
                     /\ (dirExists = true \/ mkpathOk = true)).
  { rewrite andb_true_iff, orb_true_iff. done. }
  destruct (saveDepthMarketData w1) eqn:Hon; cbn [fst snd].
  - destruct (setupTimers_table w1) as (Hgroups & Htimer & _).
    assert (Hfields : subscribeSet (setupTimers w1).1 = subscribeSet w1
                      /\ saveDepthMarketData (setupTimers w1).1 = saveDepthMarketData w1).
    { by rewrite setupTimers_state. }
    destruct Hfields as [Hset Hs].
    split; [by rewrite Hset|]. rewrite Hs, Hon.
    split; [by rewrite <- Hiff, <- Hsave|].
    split; [|split; [done | intros address; apply Hfront]].
    intros _. split.
    + unfold timerTableCurrent, closeTimes. rewrite Hset. done.
    + intros i Hi. apply elem_of_app. right. apply elem_of_app. right.
      apply elem_of_app. left. apply elem_of_app. left.
      apply list_elem_of_fmap. exists i. split; [done|].
      apply elem_of_elements. unfold w1. cbn [subscribeSet].
      by apply elem_of_list_to_set.
  - split; [done|]. cbn [saveDepthMarketData]. rewrite Hon.
    split; [by rewrite <- Hiff, <- Hsave|].
    split; [done|]. split; [|intros address; apply Hfront].
    intros _. split; [done|]. split; [done|].
    intros e Hin. rewrite app_nil_l in Hin.
    apply elem_of_app in Hin as [Hin|Hin].
    + destruct dirExists; [by apply elem_of_nil in Hin|].
      apply elem_of_cons in Hin as [Hin|Hin]; [done|].
      destruct (_ && _); [|by apply elem_of_nil in Hin].
      apply list_elem_of_singleton in Hin. done.
    + apply elem_of_app in Hin as [Hin|Hin].
      * do 2 (apply elem_of_cons in Hin as [Hin|Hin]; [done|]).
        apply list_elem_of_fmap in Hin as (a & Ha & _). done.
      * apply elem_of_cons in Hin as [Hin|Hin]; [done|].
        apply list_elem_of_singleton in Hin. done.
Qed.



Lemma processTicks_frame ticks :
  forall w : MarketWatcher.t double,
    let r := processTicks hhmmssToSec mapTimeCall ticks w in
    instrumentsToProcess r.1 = instrumentsToProcess w
    /\ saveDepthMarketDataPath r.1 = saveDepthMarketDataPath w
    /\ saveDepthMarketData r.1 = saveDepthMarketData w.
Proof.
  induction ticks as [|[tick elapsed] ticks IH]; intros w; [done|].
  rewrite processTicks_cons. cbn [fst snd].
  destruct (IH (processDepthMarketData tick elapsed w).1) as (-> & -> & ->).
  destruct (tick_touches_own_instrument tick elapsed w) as (Hframe & _).
  rewrite <- Hframe at 2 4 6. done.
Qed.

(** X15.  No published tick is lost on the way to the files: with saving
    on, when ticks of an instrument have been published and a firing on a
    trading day then reaches a group holding the instrument, the firing
    writes one file for it that holds what its buffer held before the
    ticks followed by one record per published tick, and empties the
    buffer. *)
Theorem published_ticks_are_flushed ticks now index group id (w : MarketWatcher.t double) :
  saveDepthMarketData w = true ->
  isTradingDay (currentDate now) = true ->
  atIndex (instrumentsToProcess w) index = Some group ->
  id ∈ group ->
  let r := processTicks hhmmssToSec mapTimeCall ticks w in
  emittedFor id r.2 <> [] ->
  exists w' files appended,
    timesUp now index r.1 = Some (w', files)
    /\ FileWritten (dataFileName w now id) id
         (default [] (depthMarketDataListMap w !! id) ++ appended) ∈ files
    /\ length appended = length (emittedFor id r.2)
    /\ depthMarketDataListMap w' !! id = Some [].
Proof.
  intros Hon Hday Hgroup Hid r Hpublished.
  destruct (processTicks_frame ticks w) as (Htable & Hpath & _). fold r in Htable, Hpath.
  destruct (processTicks_buffer ticks w id) as (appended & Hbuf & _ & Hlen).
  fold r in Hbuf, Hlen. rewrite Hon in Hlen.
  destruct (flushGroup_at_index now index r.1 group)
    as (m' & files & Hfire & Hin & _ & Hwritten & _); [by rewrite Htable|].
  rewrite <- (timesUp_trading_day now index r.1 Hday) in Hfire.
  exists (setDepthMarketDataListMap r.1 m'), files, appended.
  split; [done|]. split; [|split; [done | by apply Hin]].
  destruct (depthMarketDataListMap r.1 !! id) as [l|] eqn:Hl.
  - simpl in Hbuf. subst l.
    assert (Hname : dataFileName r.1 now id = dataFileName w now id)
      by (unfold dataFileName; by rewrite Hpath).
    rewrite <- Hname. apply Hwritten; [done | done |].
    intros Hnil. apply app_eq_nil in Hnil as [_ ->]. simpl in Hlen.
    destruct (emittedFor id r.2); done.
  - simpl in Hbuf. symmetry in Hbuf. apply app_eq_nil in Hbuf as [_ ->]. simpl in Hlen.
    destruct (emittedFor id r.2); done.
Qed.


Lemma setupTimers_effects (w : MarketWatcher.t double) e :
  e ∈ (setupTimers w).2 -> e = TimerDeleted \/ exists points, e = TimerCreated points.
Proof.
  unfold MarketWatcher.setupTimers. rewrite collectTimePoints_maps. cbn [snd].
  intros Hin. apply elem_of_app in Hin as [Hin|Hin].
  - destruct (multiTimer w); [|by apply elem_of_nil in Hin].
    apply list_elem_of_singleton in Hin. by left.
  - apply list_elem_of_singleton in Hin. right. by eexists.
Qed.

(** X16.  Buffered data leaves the watcher only at a firing: an event or
    a slot call writes no file and leaves every buffer as it was or with
    records added at its end; a firing, in turn, changes nothing but the
    buffers and does nothing but write files. *)
Theorem buffers_shrink_only_at_firings c (w w' : MarketWatcher.t double) es :
  step c w = Some (w', es) ->
  match c with
  | TimesUp _ _ =>
      (exists m, w' = setDepthMarketDataListMap w m)
      /\ forall e, e ∈ es -> exists fileName id data, e = FileWritten fileName id data
  | _ =>
      (forall fileName id data, FileWritten fileName id data ∉ es)
      /\ forall id, default [] (depthMarketDataListMap w !! id)
                    `prefix_of` default [] (depthMarketDataListMap w' !! id)
  end.
Proof.
  destruct c as [event|instruments updateIni|now index|today]; cbn [call].
  - intros [= Hst]. pose proof (f_equal fst Hst) as Hw. pose proof (f_equal snd Hst) as He.
    cbn [fst snd] in Hw, He. subst w' es. clear Hst. destruct event as [| | |tradingDay| | | | |field elapsed|];
      try (split; [intros f id l Hin; simpl in Hin;
                   repeat (apply elem_of_cons in Hin as [Hin|Hin]; [done|]);
                   by apply elem_of_nil in Hin | done]).
    + unfold MarketWatcher.customEvent. cbn [currentTradingDay setLoggedIn].
      destruct (decide (currentTradingDay w = tradingDay)); cbn [fst snd];
        (split; [intros f id l Hin; unfold subscribe in Hin;
                 repeat (apply elem_of_cons in Hin as [Hin|Hin]; [done|]);
                 by apply elem_of_nil in Hin | done]).
    + unfold MarketWatcher.customEvent. split.
      * intros f id l Hin.
        destruct (tick_touches_own_instrument field elapsed w) as (_ & _ & _ & [Hnil|[t Ht]]).
        -- rewrite Hnil in Hin. by apply elem_of_nil in Hin.
        -- rewrite Ht in Hin. by apply list_elem_of_singleton in Hin.
      * intros id. destruct (processDepthMarketData_buffer field elapsed w id) as (_ & -> & _).
        by eexists.
  - intros [= Hst]. pose proof (f_equal fst Hst) as Hw. pose proof (f_equal snd Hst) as He.
    cbn [fst snd] in Hw, He. subst w' es. clear Hst. destruct (subscribeInstruments_tables instruments updateIni w) as [-> ->].
    split.
    + intros f id l Hin.
      apply elem_of_app in Hin as [Hin|Hin].
      { destruct (loggedIn w); [|by apply elem_of_nil in Hin].
        by apply list_elem_of_singleton in Hin. }
      apply elem_of_app in Hin as [Hin|Hin].
      { destruct (saveDepthMarketData w); [|by apply elem_of_nil in Hin].
        apply elem_of_app in Hin as [Hin|Hin].
        - apply list_elem_of_fmap in Hin as (i & Hi & _). done.
        - apply setupTimers_effects in Hin as [Hin|[p Hin]]; done. }
      destruct updateIni; [|by apply elem_of_nil in Hin].
      by apply list_elem_of_singleton in Hin.
    + intros id. rewrite setupTimers_state.
      by destruct (loggedIn w), (saveDepthMarketData w).
  - intros Hfire. split; [by apply timesUp_fields in Hfire|]. revert Hfire.
    unfold MarketWatcher.timesUp.
    assert (Hflush : flushGroup w now index = Some (w', es) ->
                     forall e, e ∈ es -> exists fileName id data,
                         e = FileWritten fileName id data).
    { unfold MarketWatcher.flushGroup.
      destruct (atIndex (instrumentsToProcess w) index) as [group|] eqn:Hgroup; [|done].
      destruct (flushGroup_at_index now index w group Hgroup)
        as (m' & fs & Heq & _ & _ & _ & Hall & _).
      unfold MarketWatcher.flushGroup in Heq. rewrite Hgroup in Heq. rewrite Heq.
      intros [= _ <-] e He. destruct (Hall e He) as (id & l & -> & _). by eexists _, _, _. }
    destruct (negb (isTradingDay (currentDate now))); [|done].
    destruct (_ || _); [|done]. intros [= _ <-] e He. by apply elem_of_nil in He.
  - intros [= <- <-]. split; [|done]. intros f id l Hin. by apply elem_of_nil in Hin.
Qed.


End Properties.

(** * The properties on the sample data *)

Section Examples.

Local Abbreviation price := Sample.price.

(** A closed decidable statement is settled by evaluating its decision. *)
Local Ltac by_computation := apply (bool_decide_unpack _); vm_compute; exact I.


(** C2, as stated, fails: [rb2701] closes at 15:00 only, [cu2701] at
    15:00 and at 01:00, and both are in the entry of 15:00. *)
Lemma setupTimers_mixes_schedules :
  ~ groupedBySchedule Sample.getEndPoints
      (instrumentsToProcess (setupTimers Sample.getEndPoints Sample.mixed).1).
Proof.
  intros Hgrouped.
  assert (Hgroups : instrumentsToProcess (setupTimers Sample.getEndPoints Sample.mixed).1
                    = [["cu2701"]; ["cu2701"; "rb2701"]]) by (vm_compute; reflexivity).
  rewrite Hgroups in Hgrouped.
  assert (Hsched : schedule Sample.getEndPoints "cu2701" = schedule Sample.getEndPoints "rb2701").
  { apply (Hgrouped ["cu2701"; "rb2701"]); repeat constructor. }
  vm_compute in Hsched. discriminate Hsched.
Qed.

(** C2, amended, on the three sample instruments. *)
Lemma setupTimers_groups_by_close_sample :
  length (closeTimes Sample.getEndPoints Sample.started) = 2%nat
  /\ exists i g,
      closeTimes Sample.getEndPoints Sample.started !! i = Some (QTime.fromHM 15 0)
      /\ instrumentsToProcess (setupTimers Sample.getEndPoints Sample.started).1 !! i = Some g
      /\ "rb2701" ∈ g /\ "hc2701" ∈ g /\ "T2612" ∉ g.
Proof.
  destruct (setupTimers_groups_by_close price Sample.getEndPoints Sample.isTradingDay
              Sample.nextTradingDay Sample.started) as (_ & _ & _ & _ & Hthree).
  apply (Hthree "rb2701" "hc2701" "T2612" (QTime.fromHM 15 0) (QTime.fromHM 15 15));
    [reflexivity | discriminate | discriminate | discriminate
     | reflexivity | reflexivity | reflexivity].
Defined.

(** C3 on a Saturday after a trading Friday with trading again on Monday:
    at 02:31 the firing flushes as on a trading day, at 05:00:01 it
    empties the buffers. *)
Lemma timesUp_on_non_trading_day_sample :
  timesUp Sample.isTradingDay Sample.nextTradingDay
    (mkClock Sample.saturday (QTime.fromHM 2 31) "20261107_023100_000") 0 Sample.buffered
  = timesUp (fun _ => true) Sample.nextTradingDay
      (mkClock Sample.saturday (QTime.fromHM 2 31) "20261107_023100_000") 0 Sample.buffered
  /\ timesUp Sample.isTradingDay Sample.nextTradingDay
       (mkClock Sample.saturday (QTime.fromHMS 5 0 1) "20261107_050001_000") 0 Sample.buffered
     = Some (setDepthMarketDataListMap Sample.buffered ∅, []).
Proof.
  split.
  - apply (timesUp_on_non_trading_day price Sample.isTradingDay Sample.nextTradingDay
             (mkClock Sample.saturday (QTime.fromHM 2 31) "20261107_023100_000") 0
             Sample.buffered); [reflexivity | split; reflexivity | vm_compute; discriminate].
  - apply (timesUp_on_non_trading_day price Sample.isTradingDay Sample.nextTradingDay
             (mkClock Sample.saturday (QTime.fromHMS 5 0 1) "20261107_050001_000") 0
             Sample.buffered); [reflexivity | right; reflexivity].
Defined.

(** C3, as stated, fails twice.  Wednesday 2026-11-04 is not a trading
    day and not a Saturday, but Tuesday is a trading day and the next
    trading day is Friday, and the firing at 02:31 writes the buffer of
    [rb2701] instead of discarding it.  And on the Saturday the firing at
    05:00:00.000, which is not before 05:00, writes it too. *)
Lemma timesUp_flushes_on_a_break_and_at_five :
  Sample.isTradingDay Sample.wednesday = false
  /\ QDate.dayOfWeek Sample.wednesday = 3
  /\ snd <$> timesUp Sample.isTradingDay Sample.nextTradingDay
               (mkClock Sample.wednesday (QTime.fromHM 2 31) "20261104_023100_000") 0
               Sample.buffered
     = Some [FileWritten "/data/rb2701/20261104_023100_000.data" "rb2701"
               (default [] (depthMarketDataListMap Sample.buffered !! "rb2701"))]
  /\ length (default [] (depthMarketDataListMap Sample.buffered !! "rb2701")) = 3%nat
  /\ Sample.isTradingDay Sample.saturday = false
  /\ QDate.dayOfWeek Sample.saturday = 6
  /\ snd <$> timesUp Sample.isTradingDay Sample.nextTradingDay
               (mkClock Sample.saturday (QTime.fromHM 5 0) "20261107_050000_000") 0
               Sample.buffered
     = Some [FileWritten "/data/rb2701/20261107_050000_000.data" "rb2701"
               (default [] (depthMarketDataListMap Sample.buffered !! "rb2701"))].
Proof. repeat split; vm_compute; reflexivity. Qed.

Lemma sample_closes_before_last_minute id t :
  t ∈ Sample.getEndPoints id -> 0 <= t < QTime.fromHMS 23 59 0.
Proof.
  intros Ht. unfold Sample.getEndPoints, Sample.getTradingTimeRanges in Ht.
  repeat case_decide; cbn in Ht;
    repeat (apply elem_of_cons in Ht as [->|Ht]);
    try (by apply elem_of_nil in Ht); unfold QTime.fromHM, QTime.fromHMS; lia.
Qed.

(** C4 on the three sample instruments: closes at 15:00 and 15:15, armed
    points at 15:01 and 15:16. *)
Lemma setupTimers_arms_closes_plus_60_sample :
  multiTimer (setupTimers Sample.getEndPoints Sample.started).1
  = Some [QTime.fromHM 15 1; QTime.fromHM 15 16]
  /\ StronglySorted Z.lt
       ((fun tp => QTime.addSecs tp 60) <$> closeTimes Sample.getEndPoints Sample.started).
Proof.
  destruct (setupTimers_arms_closes_plus_60 price Sample.getEndPoints Sample.started)
    as (Harmed & _ & _ & _ & _ & Hday).
  split; [rewrite Harmed; vm_compute; reflexivity|].
  apply Hday. intros id t _ Ht. by apply sample_closes_before_last_minute with id.
Defined.


(** C5 on the sample watcher: the login of the next trading day rebuilds
    the validators with the new day and leaves the timer as it is. *)
Lemma rebuilds_on_login_and_subscription_sample :
  let r := customEvent Sample.getTradingTimeRanges Sample.hhmmssToSec Sample.mapTimeCall
             (RSP_USER_LOGIN "20261103") Sample.buffered in
  mapTime r.1 = "20261103"
  /\ timeValidators r.1 !! "rb2701"
     = Some (TimeValidator.create [Sample.epoch "20261103" + 9 * 3600;
                                   Sample.epoch "20261103" + 15 * 3600])
  /\ multiTimer r.1 = multiTimer Sample.buffered.
Proof.
  destruct (rebuilds_on_login_and_subscription price Sample.getEndPoints
              Sample.getTradingTimeRanges Sample.hhmmssToSec Sample.mapTimeCall
              Sample.buffered) as (Hlogin & _ & _).
  destruct (Hlogin "20261103") as (Hday & _ & _ & Hvalidators & _ & Htimer & _);
    [vm_compute; discriminate|].
  intros r. split; [exact Hday|]. split; [|exact Htimer].
  unfold r. rewrite Hvalidators. vm_compute. reflexivity.
Defined.

(** C5, as stated, fails.  The login of a new trading day creates no
    timer: its effects are the two signals below.  Subscribing an
    instrument while logged out leaves it without a validator, and
    subscribing one with saving off builds no timer table. *)
Lemma login_and_subscription_skip_rebuilds :
  (customEvent Sample.getTradingTimeRanges Sample.hhmmssToSec Sample.mapTimeCall
     (RSP_USER_LOGIN "20261103") Sample.buffered).2
  = [tradingDayChanged "20261103"; SubscribeMarketData ["rb2701"; "T2612"; "hc2701"]]
  /\ (let r := subscribeInstruments Sample.getEndPoints Sample.getTradingTimeRanges
                 Sample.mapTimeCall ["cu2701"] false Sample.armed in
      "cu2701" ∈ subscribeSet r.1
      /\ timeValidators r.1 = ∅
      /\ timeValidators (setupTimeValidators Sample.getTradingTimeRanges Sample.mapTimeCall r.1)
           !! "cu2701" <> None)
  /\ (let r := subscribeInstruments Sample.getEndPoints Sample.getTradingTimeRanges
                 Sample.mapTimeCall ["cu2701"] false Sample.notSaving in
      "cu2701" ∈ subscribeSet r.1
      /\ multiTimer r.1 = None
      /\ instrumentsToProcess r.1 = []
      /\ r.2 = [SubscribeMarketData ["cu2701"]]).
Proof.
  split; [vm_compute; reflexivity|]. split.
  - split; [|split].
    + by_computation.
    + vm_compute. reflexivity.
    + vm_compute. discriminate.
  - split; [|split; [|split]]; [|vm_compute; reflexivity..].
    by_computation.
Qed.

(** C6 on the sample watcher: with no floor the session of [rb2701] is
    kept with both its boundaries. *)
Lemma setupTimeValidators_keeps_sessions_by_start_sample :
  timeValidators (setupTimeValidators Sample.getTradingTimeRanges Sample.mapTimeCall
                    Sample.loggedInMonday) !! "rb2701"
  = Some (TimeValidator.create [Sample.epoch "20261102" + 9 * 3600;
                                Sample.epoch "20261102" + 15 * 3600])
  /\ Sample.epoch "20261102" + 15 * 3600
     ∈ keptBoundaries Sample.mapTimeCall "20261102" 0 (Sample.getTradingTimeRanges "rb2701").
Proof.
  destruct (setupTimeValidators_keeps_sessions_by_start price Sample.getTradingTimeRanges
              Sample.mapTimeCall Sample.loggedInMonday "rb2701")
    as (Hlookup & _ & _ & Hkept & _).
  split; [rewrite Hlookup; vm_compute; reflexivity|].
  apply (Hkept (QTime.fromHM 9 0, QTime.fromHM 15 0)).
  - vm_compute. left.
  - vm_compute. discriminate.
Defined.

(** C6, as stated, fails: with the floor at 10:00 the session of
    [rb2701] from 09:00 to 15:00 is dropped whole, so its end, which is
    not earlier than the floor, is not retained. *)
Lemma setupTimeValidators_drops_end_with_start :
  let b := Sample.mapTimeCall "20261102" (secondsOfDay (QTime.fromHM 15 0)) in
  b ∈ allBoundaries Sample.mapTimeCall (mapTime Sample.floorAtTen)
        (Sample.getTradingTimeRanges "rb2701")
  /\ earliestTime Sample.floorAtTen <= b
  /\ "rb2701" ∈ subscribeSet Sample.floorAtTen
  /\ timeValidators (setupTimeValidators Sample.getTradingTimeRanges Sample.mapTimeCall
                       Sample.floorAtTen) !! "rb2701" = None.
Proof.
  split; [|split; [|split]].
  - vm_compute. right. left.
  - vm_compute. discriminate.
  - by_computation.
  - vm_compute. reflexivity.
Qed.


(** C7 on an instrument the session tables do not know. *)
Lemma instrument_without_sessions_sample :
  emittedFor "ag2701"
    (processTicks Sample.hhmmssToSec Sample.mapTimeCall
       [(Sample.tick "ag2701" "09:00:01" 0, 100)]
       (setupTimeValidators Sample.getTradingTimeRanges Sample.mapTimeCall
          Sample.loggedInMonday)).2 = []
  /\ (forall g, g ∈ instrumentsToProcess (setupTimers Sample.getEndPoints Sample.loggedInMonday).1 ->
                "ag2701" ∉ g)
  /\ is_Some (timesUp Sample.isTradingDay Sample.nextTradingDay
                (mkClock Sample.monday (QTime.fromHM 15 1) "20261102_150100_000") 1
                (setupTimers Sample.getEndPoints Sample.loggedInMonday).1).
Proof.
  destruct (instrument_without_sessions price Sample.getEndPoints Sample.getTradingTimeRanges
              Sample.hhmmssToSec Sample.mapTimeCall Sample.isTradingDay Sample.nextTradingDay
              Sample.loggedInMonday "ag2701") as ((_ & Hticks) & Hgroups & Hfire);
    [left; reflexivity|].
  split; [apply Hticks|]. split; [apply Hgroups; reflexivity|].
  apply Hfire. vm_compute. split; [discriminate | reflexivity].
Defined.

(** C7, as stated, fails: after [setWeekend] every session of [rb2701]
    starts before the earliest acceptable time, so it has no validator,
    yet the timer table still lists it under its close at 15:00. *)
Lemma floored_instrument_is_still_grouped :
  keptBoundaries Sample.mapTimeCall (mapTime Sample.weekend) (earliestTime Sample.weekend)
    (Sample.getTradingTimeRanges "rb2701") = []
  /\ timeValidators (setupTimeValidators Sample.getTradingTimeRanges Sample.mapTimeCall
                       Sample.weekend) !! "rb2701" = None
  /\ instrumentsToProcess (setupTimers Sample.getEndPoints Sample.weekend).1 !! 0%nat
     = Some ["rb2701"; "hc2701"].
Proof. repeat split; vm_compute; reflexivity. Qed.

(** C9 on the sample watcher: the firing of 15:01 on Monday writes and
    clears the buffer of [rb2701] and leaves that of [T2612] alone. *)
Lemma timesUp_flushes_exactly_the_group_sample :
  exists m' files,
    timesUp Sample.isTradingDay Sample.nextTradingDay
      (mkClock Sample.monday (QTime.fromHM 15 1) "20261102_150100_000") 0 Sample.buffered
    = Some (setDepthMarketDataListMap Sample.buffered m', files)
    /\ m' !! "rb2701" = Some []
    /\ m' !! "T2612" = depthMarketDataListMap Sample.buffered !! "T2612"
    /\ exists l, length l = 3%nat
                 /\ FileWritten "/data/rb2701/20261102_150100_000.data" "rb2701" l ∈ files.
Proof.
  destruct (timesUp_flushes_exactly_the_group price Sample.isTradingDay Sample.nextTradingDay
              (mkClock Sample.monday (QTime.fromHM 15 1) "20261102_150100_000") 0
              Sample.buffered ["rb2701"; "hc2701"])
    as (m' & files & Heq & Hin & Hout & Hwritten & _);
    [reflexivity | vm_compute; reflexivity |].
  exists m', files. split; [exact Heq|].
  split; [apply Hin; by_computation|]. split; [apply Hout; by_computation|].
  destruct (depthMarketDataListMap Sample.buffered !! "rb2701") as [l|] eqn:Hl;
    [|vm_compute in Hl; discriminate Hl].
  exists l. split.
  - vm_compute in Hl. injection Hl as <-. reflexivity.
  - apply (Hwritten "rb2701" l); [by_computation | exact Hl |].
    vm_compute in Hl. injection Hl as <-. discriminate.
Defined.

(** C10 on the sample watcher: the first tick of [rb2701] is published
    with the time [validate] returns. *)
Lemma processDepthMarketData_publishes_iff_validated_sample :
  (processDepthMarketData Sample.hhmmssToSec Sample.mapTimeCall
     (Sample.tick "rb2701" "09:00:01" 0) 100 Sample.loggedInMonday).2
  = [newMarketData "rb2701" ((Sample.epoch "20261102" + 9 * 3600 + 1) * 1000)
       350000 12 350100 5 349900 7].
Proof.
  pose proof (processDepthMarketData_publishes_iff_validated price Sample.hhmmssToSec
                Sample.mapTimeCall (Sample.tick "rb2701" "09:00:01" 0) 100
                Sample.loggedInMonday) as Hspec.
  cbv zeta in Hspec. destruct Hspec as (Hpublished & _ & _).
  destruct (Hpublished (TimeValidator.create [Sample.epoch "20261102" + 9 * 3600;
                                              Sample.epoch "20261102" + 15 * 3600]))
    as [Heffects _]; [vm_compute; reflexivity | vm_compute; reflexivity |].
  rewrite Heffects. vm_compute. reflexivity.
Defined.

(** C10, as stated, fails: with [saveDepthMarketData] off the tick is
    published and no buffer is touched. *)
Lemma published_tick_not_buffered_when_not_saving :
  saveDepthMarketData Sample.notSaving = false
  /\ (processDepthMarketData Sample.hhmmssToSec Sample.mapTimeCall
        (Sample.tick "rb2701" "09:00:01" 0) 100 Sample.notSaving).2
     = [newMarketData "rb2701" 1793610001000 350000 12 350100 5 349900 7]
  /\ depthMarketDataListMap
       (processDepthMarketData Sample.hhmmssToSec Sample.mapTimeCall
          (Sample.tick "rb2701" "09:00:01" 0) 100 Sample.notSaving).1
     = depthMarketDataListMap Sample.notSaving.
Proof. repeat split; vm_compute; reflexivity. Qed.


(** X1 on the sample watcher. *)
Lemma getStatus_follows_login_sample :
  getStatus Startup.disconnected = "NotReady"
  /\ getStatus (customEvent Sample.getTradingTimeRanges Sample.hhmmssToSec Sample.mapTimeCall
                  (RSP_USER_LOGIN "20261102") Startup.disconnected).1 = "Ready".
Proof.
  split.
  - apply (getStatus_follows_login price Sample.getEndPoints Sample.getTradingTimeRanges
             Sample.hhmmssToSec Sample.dateToUtcTimestamp Sample.mapTimeCall
             Sample.isTradingDay Sample.nextTradingDay
             (CustomEvent (FRONT_DISCONNECTED 0)) Sample.buffered Startup.disconnected []).
    reflexivity.
  - apply (getStatus_follows_login price Sample.getEndPoints Sample.getTradingTimeRanges
             Sample.hhmmssToSec Sample.dateToUtcTimestamp Sample.mapTimeCall
             Sample.isTradingDay Sample.nextTradingDay
             (CustomEvent (RSP_USER_LOGIN "20261102")) Startup.disconnected _
             (customEvent Sample.getTradingTimeRanges Sample.hhmmssToSec Sample.mapTimeCall
                (RSP_USER_LOGIN "20261102") Startup.disconnected).2).
    vm_compute. reflexivity.
Defined.

(** X2 on the sample watcher: a tick of [rb2701] leaves [T2612] alone. *)
Lemma processDepthMarketData_frame_sample :
  let r := processDepthMarketData Sample.hhmmssToSec Sample.mapTimeCall
             (Sample.tick "rb2701" "09:00:01" 0) 100 Sample.loggedInMonday in
  timeValidators r.1 !! "T2612" = timeValidators Sample.loggedInMonday !! "T2612"
  /\ depthMarketDataListMap r.1 !! "T2612"
     = depthMarketDataListMap Sample.loggedInMonday !! "T2612".
Proof.
  pose proof (processDepthMarketData_frame price Sample.hhmmssToSec Sample.mapTimeCall
                (Sample.tick "rb2701" "09:00:01" 0) 100 Sample.loggedInMonday) as Hframe.
  cbv zeta in Hframe. destruct Hframe as (_ & _ & Hother & _).
  apply Hother. discriminate.
Defined.

(** X3 and X4 on a day of the sample watcher. *)
Lemma subscriptions_only_grow_sample :
  exists w' es,
    calls Sample.getEndPoints Sample.getTradingTimeRanges Sample.hhmmssToSec
          Sample.dateToUtcTimestamp Sample.mapTimeCall Sample.isTradingDay
          Sample.nextTradingDay Startup.day Sample.buffered = Some (w', es)
    /\ subscribeSet w' = subscribeSet Sample.buffered ∪ {[ "cu2701" ]} ∪ ∅.
Proof.
  destruct (calls Sample.getEndPoints Sample.getTradingTimeRanges Sample.hhmmssToSec
              Sample.dateToUtcTimestamp Sample.mapTimeCall Sample.isTradingDay
              Sample.nextTradingDay Startup.day Sample.buffered) as [[w' es]|] eqn:Hrun;
    [|vm_compute in Hrun; discriminate Hrun].
  exists w', es. split; [reflexivity|].
  destruct (subscriptions_only_grow price Sample.getEndPoints Sample.getTradingTimeRanges
              Sample.hhmmssToSec Sample.dateToUtcTimestamp Sample.mapTimeCall
              Sample.isTradingDay Sample.nextTradingDay Startup.day Sample.buffered w' es Hrun)
    as (Hset & _).
  rewrite Hset. reflexivity.
Defined.

Lemma timer_table_stays_current_sample :
  exists w' es,
    calls Sample.getEndPoints Sample.getTradingTimeRanges Sample.hhmmssToSec
          Sample.dateToUtcTimestamp Sample.mapTimeCall Sample.isTradingDay
          Sample.nextTradingDay Startup.day Sample.buffered = Some (w', es)
    /\ timerTableCurrent Sample.getEndPoints w'.
Proof.
  destruct (calls Sample.getEndPoints Sample.getTradingTimeRanges Sample.hhmmssToSec
              Sample.dateToUtcTimestamp Sample.mapTimeCall Sample.isTradingDay
              Sample.nextTradingDay Startup.day Sample.buffered) as [[w' es]|] eqn:Hrun;
    [|vm_compute in Hrun; discriminate Hrun].
  exists w', es. split; [reflexivity|].
  apply (timer_table_stays_current price Sample.getEndPoints Sample.getTradingTimeRanges
           Sample.hhmmssToSec Sample.dateToUtcTimestamp Sample.mapTimeCall
           Sample.isTradingDay Sample.nextTradingDay Startup.day Sample.buffered w' es);
    [reflexivity | split; vm_compute; reflexivity | exact Hrun].
Defined.

(** X6 on the sample watcher. *)
Lemma refiring_writes_nothing_sample :
  exists w1 files w2,
    timesUp Sample.isTradingDay Sample.nextTradingDay Startup.afterClose 0 Sample.buffered
    = Some (w1, files)
    /\ timesUp Sample.isTradingDay Sample.nextTradingDay Startup.afterClose 0 w1
       = Some (w2, []).
Proof.
  destruct (timesUp Sample.isTradingDay Sample.nextTradingDay Startup.afterClose 0
              Sample.buffered) as [[w1 files]|] eqn:Hfirst;
    [|vm_compute in Hfirst; discriminate Hfirst].
  destruct (refiring_writes_nothing price Sample.isTradingDay Sample.nextTradingDay
              Startup.afterClose Startup.afterClose 0 Sample.buffered w1 files
              ["rb2701"; "hc2701"]) as (w2 & Hsecond & _);
    [vm_compute; reflexivity | exact Hfirst |].
  exists w1, files, w2. split; [reflexivity | exact Hsecond].
Defined.

(** X8 on two sample names. *)
Lemma dataFileName_determines_instrument_sample :
  ("rb2701" = "rb2701"
   /\ currentDateTime Startup.afterClose = currentDateTime Startup.afterClose)
  /\ dataFileName Sample.buffered Startup.afterClose "rb2701"
     <> dataFileName Sample.buffered
          (mkClock Sample.monday (QTime.fromHM 15 1) "20261102_150100_007") "hc2701".
Proof.
  split.
  - apply (dataFileName_determines_instrument price Sample.buffered Startup.afterClose
             Startup.afterClose "rb2701" "rb2701"); reflexivity.
  - intros Heq.
    destruct (dataFileName_determines_instrument price Sample.buffered Startup.afterClose
                (mkClock Sample.monday (QTime.fromHM 15 1) "20261102_150100_007")
                "rb2701" "hc2701") as [Hid _]; [reflexivity | exact Heq |].
    discriminate Hid.
Defined.

(** X7 on the sample watcher: index 2 is outside the table of two groups. *)
Lemma timesUp_fails_only_out_of_range_sample :
  timesUp Sample.isTradingDay Sample.nextTradingDay Startup.afterClose 2 Sample.buffered = None.
Proof.
  apply (timesUp_fails_only_out_of_range price Sample.isTradingDay Sample.nextTradingDay
           Startup.afterClose 2 Sample.buffered).
  split; [right; vm_compute; discriminate | left; reflexivity].
Defined.

(** X9 on the three sample instruments. *)
Lemma setupTimers_table_shape_sample :
  exists g, g ∈ instrumentsToProcess (setupTimers Sample.getEndPoints Sample.started).1
            /\ "T2612" ∈ g.
Proof.
  destruct (setupTimers_table_shape price Sample.getEndPoints Sample.started)
    as (_ & _ & Hcover).
  apply Hcover; [by_computation | vm_compute; discriminate].
Defined.

(** X10 on the sample watcher. *)
Lemma setupTimeValidators_table_shape_sample :
  exists v,
    timeValidators Sample.loggedInMonday !! "rb2701" = Some v
    /\ Sorted Z.le (TimeValidator.tradetimes v)
    /\ TimeValidator.latest v = None.
Proof.
  destruct (timeValidators Sample.loggedInMonday !! "rb2701") as [v|] eqn:Hv;
    [|vm_compute in Hv; discriminate Hv].
  exists v. split; [reflexivity|].
  destruct (setupTimeValidators_table_shape price Sample.getTradingTimeRanges
              Sample.mapTimeCall (setTradingDay (setLoggedIn Sample.armed true) "20261102")
              "rb2701" v) as (_ & Hlatest & Hsorted & _); [exact Hv|].
  split; [exact Hsorted | exact Hlatest].
Defined.

(** X12 on the sample watcher. *)
Lemma offline_subscription_has_no_validator_sample :
  let r := customEvent Sample.getTradingTimeRanges Sample.hhmmssToSec Sample.mapTimeCall
             (RSP_USER_LOGIN "20261102")
             (subscribeInstruments Sample.getEndPoints Sample.getTradingTimeRanges
                Sample.mapTimeCall ["cu2701"] false Startup.disconnected).1 in
  "cu2701" ∈ subscribeSet r.1 /\ timeValidators r.1 !! "cu2701" = None.
Proof.
  destruct (offline_subscription_has_no_validator price Sample.getEndPoints
              Sample.getTradingTimeRanges Sample.hhmmssToSec Sample.mapTimeCall
              ["cu2701"] false "cu2701" Startup.disconnected)
    as (Hin & _ & _ & Hnone & _);
    [reflexivity | by_computation | vm_compute; reflexivity |].
  split; [exact Hin | exact Hnone].
Defined.

(** X13 on the sample watcher: on the Saturday before, the floor is 08:00
    of Monday and the session of [rb2701] from 09:00 survives the rebuild. *)
Lemma setWeekend_takes_effect_at_rebuild_sample :
  is_Some (timeValidators
             (setupTimeValidators Sample.getTradingTimeRanges Sample.mapTimeCall
                (setWeekend Sample.dateToUtcTimestamp Sample.nextTradingDay
                   (Sample.monday - 2) Sample.loggedInMonday)) !! "rb2701").
Proof.
  apply (setWeekend_takes_effect_at_rebuild price Sample.getTradingTimeRanges
           Sample.hhmmssToSec Sample.dateToUtcTimestamp Sample.mapTimeCall
           Sample.nextTradingDay (Sample.monday - 2) Sample.loggedInMonday).
  split; [by_computation|].
  exists (QTime.fromHM 9 0, QTime.fromHM 15 0). split; [by_computation|].
  vm_compute. discriminate.
Defined.

(** X14 on the sample configuration: the directory is missing and can be
    created. *)
Lemma construct_saving_needs_directory_sample :
  saveDepthMarketData (construct Sample.getEndPoints Startup.settings false true
                         Startup.blank).1 = true
  /\ timerTableCurrent Sample.getEndPoints
       (construct Sample.getEndPoints Startup.settings false true Startup.blank).1.
Proof.
  destruct (construct_saving_needs_directory price Sample.getEndPoints Startup.settings
              false true Startup.blank) as (_ & Hsave & Hon & _).
  assert (Htrue : saveDepthMarketData
                    (construct Sample.getEndPoints Startup.settings false true
                       Startup.blank).1 = true).
  { apply Hsave. split; [reflexivity | right; reflexivity]. }
  split; [exact Htrue | apply Hon, Htrue].
Defined.

(** X15 on the sample run. *)
Lemma published_ticks_are_flushed_sample :
  exists w' files appended,
    timesUp Sample.isTradingDay Sample.nextTradingDay Startup.afterClose 0
      (processTicks Sample.hhmmssToSec Sample.mapTimeCall Sample.ticks Sample.loggedInMonday).1
    = Some (w', files)
    /\ FileWritten "/data/rb2701/20261102_150100_000.data" "rb2701" appended ∈ files
    /\ length appended = 3%nat.
Proof.
  destruct (published_ticks_are_flushed price Sample.hhmmssToSec Sample.mapTimeCall
              Sample.isTradingDay Sample.nextTradingDay Sample.ticks Startup.afterClose 0
              ["rb2701"; "hc2701"] "rb2701" Sample.loggedInMonday)
    as (w' & files & appended & Hfire & Hfile & Hlen & _);
    [reflexivity | reflexivity | vm_compute; reflexivity | by_computation
     | vm_compute; discriminate |].
  exists w', files, appended. split; [exact Hfire|]. split; [exact Hfile|].
  rewrite Hlen. vm_compute. reflexivity.
Defined.


(** X16 on the sample watcher: one more tick of [rb2701]. *)
Lemma buffers_shrink_only_at_firings_sample :
  default [] (depthMarketDataListMap Sample.buffered !! "rb2701")
  `prefix_of`
  default [] (depthMarketDataListMap
                (customEvent Sample.getTradingTimeRanges Sample.hhmmssToSec Sample.mapTimeCall
                   (DEPTH_MARKET_DATA (Sample.tick "rb2701" "09:00:03" 0) 160)
                   Sample.buffered).1 !! "rb2701").
Proof.
  destruct (customEvent Sample.getTradingTimeRanges Sample.hhmmssToSec Sample.mapTimeCall
              (DEPTH_MARKET_DATA (Sample.tick "rb2701" "09:00:03" 0) 160) Sample.buffered)
    as [w' es] eqn:Hevent.
  apply (buffers_shrink_only_at_firings price Sample.getEndPoints Sample.getTradingTimeRanges
           Sample.hhmmssToSec Sample.dateToUtcTimestamp Sample.mapTimeCall
           Sample.isTradingDay Sample.nextTradingDay
           (CustomEvent (DEPTH_MARKET_DATA (Sample.tick "rb2701" "09:00:03" 0) 160))
           Sample.buffered w' es).
  cbn [call]. rewrite Hevent. reflexivity.
Defined.


End Examples.
